(** * Synapse: directory servlets and account-validity configuration

    A shallow embedding of

    - [synapse/rest/client/v1/directory.py]: the REST servlets for room
      aliases and for the published room lists, and
    - [synapse/config/account_validity.py]: the loader of the
      [account_validity] configuration section,

    together with the properties of them that the design document states.

    Python values are an inductive type, dictionaries are finite maps with
    string keys, exceptions are an inductive type, and a method body is a
    computation in a state-and-exception monad.  Every call that leaves the
    file (data store, authentication, directory handler, request parsing,
    logging, module loader) is recorded in a trace, so that a collaborator
    being called with given arguments, or not being called at all, is a
    statement about the trace. *)

From Stdlib Require Import ZArith String Ascii.
From Stdlib Require Import Floats.SpecFloat.
From stdpp Require Import base gmap strings list pretty.

Set Warnings "-register-all".
Open Scope Z_scope.

(** ** Python values, truthiness, exceptions *)

Module Py.

(** The values that YAML and JSON decoding and database rows produce.  A
    float is an IEEE-754 binary64 number. *)
Inductive PyVal : Type :=
| PyNone
| PyBool (b : bool)
| PyInt (z : Z)
| PyFloat (f : spec_float)
| PyStr (s : string)
| PyList (l : list PyVal)
| PyDict (d : gmap string PyVal).

(** [bool(v)], the test performed by [if v:] and [not v]. *)
Definition truthy (v : PyVal) : bool :=
  match v with
  | PyNone => false
  | PyBool b => b
  | PyInt z => negb (z =? 0)
  | PyFloat f => match f with S754_zero _ => false | _ => true end
  | PyStr s => match s with EmptyString => false | _ => true end
  | PyList l => match l with [] => false | _ => true end
  | PyDict d => negb (bool_decide (dom d = ∅))
  end.

(** [v == s] for a string literal [s]: only a [str] equals a [str]. *)
Definition eq_str (v : PyVal) (s : string) : bool :=
  match v with
  | PyStr t => String.eqb t s
  | _ => false
  end.

(** [k in d] and [d.get(k, dflt)]. *)
Definition contains (d : gmap string PyVal) (k : string) : bool :=
  bool_decide (is_Some (d !! k)).

Definition get (d : gmap string PyVal) (k : string) (dflt : PyVal) : PyVal :=
  default dflt (d !! k).

(** Conversion of an [int] to a binary64 float (round to nearest even); the
    result is infinite when the integer is out of range. *)
Definition float_of_int (z : Z) : spec_float :=
  binary_normalize 53 1024 z 0 false.

Definition float_mul : spec_float -> spec_float -> spec_float := SFmul 53 1024.
Definition float_div : spec_float -> spec_float -> spec_float := SFdiv 53 1024.

(** Error codes of [synapse.api.errors.Codes]; the servlets name one. *)
Inductive Codes : Type :=
| BAD_JSON
| OtherCode (name : string).

(** The exceptions that the two files raise or catch, with the arguments
    their constructors are given.  [errcode = None] is an omitted keyword
    argument.  [InvalidClientCredentialsError] stands for the class and its
    subclasses, which is what an [except] clause matches.  [OtherError] is
    any exception of another class raised by a collaborator. *)
Inductive exn : Type :=
| SynapseError (code : Z) (msg : string) (errcode : option Codes)
| AuthError (code : Z) (msg : string)
| NotFoundError (msg : string)
| InvalidClientCredentialsError (msg : string)
| ConfigError (msg : string) (path : option (list string))
| OtherError (cls : string) (msg : string).

Definition is_InvalidClientCredentialsError (e : exn) : bool :=
  match e with
  | InvalidClientCredentialsError _ => true
  | _ => false
  end.

(** The result of running a statement: it returns or it raises. *)
Inductive outcome (A : Type) : Type :=
| Returns (a : A)
| Raises (e : exn).
Arguments Returns {A} a.
Arguments Raises {A} e.

Definition returned {A} (o : outcome A) : bool :=
  match o with Returns _ => true | Raises _ => false end.

(** A method body: a state transformer that returns or raises.  A raise
    keeps the state reached so far, as a Python exception does. *)
Definition M (St A : Type) : Type := St -> outcome A * St.

Definition ret {St A} (a : A) : M St A := fun s => (Returns a, s).

Definition raise {St A} (e : exn) : M St A := fun s => (Raises e, s).

Definition bind {St A B} (c : M St A) (k : A -> M St B) : M St B :=
  fun s =>
    match c s with
    | (Returns a, s') => k a s'
    | (Raises e, s') => (Raises e, s')
    end.

(** [try: body  except <class>: handler], where [catches] recognises the
    class. *)
Definition try_except {St A} (body : M St A) (catches : exn -> bool)
    (handler : M St A) : M St A :=
  fun s =>
    match body s with
    | (Returns a, s') => (Returns a, s')
    | (Raises e, s') => if catches e then handler s' else (Raises e, s')
    end.

End Py.

Import Py.

Notation "'let!' x ':=' c 'in' k" := (bind c (fun x => k))
  (at level 10, x binder, c at level 100, k at level 200).
Notation "c ';;;' k" := (bind c (fun _ => k))
  (at level 100, k at level 200, right associativity).

(** ** The servlets of [synapse/rest/client/v1/directory.py] *)

Module Directory.

(** [synapse.appservice.ApplicationService], the attributes read here. *)
Module ApplicationService.
Record t : Type := mk { id : string; url : PyVal }.
End ApplicationService.

Inductive LogLevel : Type := DEBUG | INFO.

(** The collaborators a servlet reaches through [hs]. *)
Inductive Component : Type := Http | Types | Logger | Store | Auth | Handler.

#[global] Instance Component_eq_dec : EqDecision Component.
Proof. solve_decision. Defined.

Section Servlets.

(** The request object, the parsed identifiers and the state behind the
    data store, the authenticator and the directory handler belong to other
    modules of the server; the servlets only pass them on. *)
Context {SynapseRequest RoomAlias UserID W : Type}.

(** [synapse.types.Requester], the attributes read here. *)
Record Requester : Type := mkRequester {
  user : UserID;
  app_service : option ApplicationService.t
}.

(** A JSON object, and the [(code, body)] pair a servlet method returns. *)
Abbreviation JsonDict := (gmap string PyVal).
Abbreviation Response := (Z * gmap string PyVal)%type.

(** One entry per call that leaves the servlet. *)
Inductive Event : Type :=
| RoomAliasFromString (s : string)
| RoomAliasFromStringOfAlias (a : RoomAlias)
| ParseJsonObjectFromRequest (request : SynapseRequest)
| LoggerCall (level : LogLevel) (fmt : string) (args : list PyVal)
| StoreGetRoom (room_id : PyVal)
| AuthGetUserByReq (request : SynapseRequest)
| AuthGetAppserviceByReq (request : SynapseRequest)
| AuthIsServerAdmin (u : UserID)
| HandlerGetAssociation (room_alias : RoomAlias)
| HandlerCreateAssociation (requester : Requester) (room_alias : RoomAlias)
    (room_id servers : PyVal)
| HandlerDeleteAssociation (requester : Requester) (room_alias : RoomAlias)
| HandlerDeleteAppserviceAssociation (service : ApplicationService.t)
    (room_alias : RoomAlias)
| HandlerEditPublishedRoomList (requester : Requester) (room_id : string)
    (visibility : PyVal)
| HandlerEditPublishedAppserviceRoomList (appservice_id network_id : string)
    (room_id : string) (visibility : PyVal).

Definition component (ev : Event) : Component :=
  match ev with
  | RoomAliasFromString _ | RoomAliasFromStringOfAlias _ => Types
  | ParseJsonObjectFromRequest _ => Http
  | LoggerCall _ _ _ => Logger
  | StoreGetRoom _ => Store
  | AuthGetUserByReq _ | AuthGetAppserviceByReq _ | AuthIsServerAdmin _ => Auth
  | HandlerGetAssociation _ | HandlerCreateAssociation _ _ _ _
  | HandlerDeleteAssociation _ _ | HandlerDeleteAppserviceAssociation _ _
  | HandlerEditPublishedRoomList _ _ _
  | HandlerEditPublishedAppserviceRoomList _ _ _ _ => Handler
  end.

(** [hs]: what the servlets obtain from the home server.  The parsers are
    functions of their argument; the data store, the authenticator and the
    directory handler read and write the server state [W].
    [RoomAlias_from_string_of_alias] is [RoomAlias.from_string] applied to
    an object that is already a [RoomAlias], which is what [on_DELETE] passes
    once its variable [room_alias] has been rebound. *)
Record HomeServer : Type := mkHomeServer {
  RoomAlias_from_string : string -> outcome RoomAlias;
  RoomAlias_from_string_of_alias : RoomAlias -> outcome RoomAlias;
  RoomAlias_to_string : RoomAlias -> string;
  UserID_to_string : UserID -> string;
  parse_json_object_from_request : SynapseRequest -> outcome JsonDict;
  store_get_room : PyVal -> W -> outcome (option JsonDict) * W;
  auth_get_user_by_req : SynapseRequest -> W -> outcome Requester * W;
  auth_get_appservice_by_req :
    SynapseRequest -> W -> outcome ApplicationService.t * W;
  auth_is_server_admin : UserID -> W -> outcome bool * W;
  handler_get_association : RoomAlias -> W -> outcome JsonDict * W;
  handler_create_association :
    Requester -> RoomAlias -> PyVal -> PyVal -> W -> outcome unit * W;
  handler_delete_association :
    Requester -> RoomAlias -> W -> outcome unit * W;
  handler_delete_appservice_association :
    ApplicationService.t -> RoomAlias -> W -> outcome unit * W;
  handler_edit_published_room_list :
    Requester -> string -> PyVal -> W -> outcome unit * W;
  handler_edit_published_appservice_room_list :
    string -> string -> string -> PyVal -> W -> outcome unit * W
}.

(** The state a servlet method runs in: the server state and the calls
    made so far, oldest first. *)
Record ServerState : Type := mkState {
  world : W;
  calls : list Event
}.

Definition call {A} (ev : Event) (f : W -> outcome A * W)
    : M ServerState A :=
  fun s =>
    let '(r, w') := f (world s) in
    (r, {| world := w'; calls := calls s ++ [ev] |}).

Definition call_pure {A} (ev : Event) (r : outcome A) : M ServerState A :=
  call ev (fun w => (r, w)).

Definition log (level : LogLevel) (fmt : string) (args : list PyVal)
    : M ServerState unit :=
  call_pure (LoggerCall level fmt args) (Returns tt).

(** [d[k]] *)
Definition getitem (d : JsonDict) (k : string) : M ServerState PyVal :=
  match d !! k with
  | Some v => ret v
  | None => raise (OtherError "KeyError" k)
  end.

Variable hs : HomeServer.

(** The collaborators as the servlet calls them. *)
Definition from_string (s : string) : M ServerState RoomAlias :=
  call_pure (RoomAliasFromString s) (RoomAlias_from_string hs s).
Definition from_string_of_alias (a : RoomAlias) : M ServerState RoomAlias :=
  call_pure (RoomAliasFromStringOfAlias a) (RoomAlias_from_string_of_alias hs a).
Definition parse_json (request : SynapseRequest) : M ServerState JsonDict :=
  call_pure (ParseJsonObjectFromRequest request)
    (parse_json_object_from_request hs request).
Definition get_room (room_id : PyVal) :=
  call (StoreGetRoom room_id) (store_get_room hs room_id).
Definition get_user_by_req (request : SynapseRequest) :=
  call (AuthGetUserByReq request) (auth_get_user_by_req hs request).
Definition get_appservice_by_req (request : SynapseRequest) :=
  call (AuthGetAppserviceByReq request) (auth_get_appservice_by_req hs request).
Definition is_server_admin (u : UserID) :=
  call (AuthIsServerAdmin u) (auth_is_server_admin hs u).
Definition get_association (a : RoomAlias) :=
  call (HandlerGetAssociation a) (handler_get_association hs a).
Definition create_association (r : Requester) (a : RoomAlias)
    (room_id servers : PyVal) :=
  call (HandlerCreateAssociation r a room_id servers)
    (handler_create_association hs r a room_id servers).
Definition delete_association (r : Requester) (a : RoomAlias) :=
  call (HandlerDeleteAssociation r a) (handler_delete_association hs r a).
Definition delete_appservice_association (service : ApplicationService.t)
    (a : RoomAlias) :=
  call (HandlerDeleteAppserviceAssociation service a)
    (handler_delete_appservice_association hs service a).
Definition edit_published_room_list (r : Requester) (room_id : string)
    (visibility : PyVal) :=
  call (HandlerEditPublishedRoomList r room_id visibility)
    (handler_edit_published_room_list hs r room_id visibility).
Definition edit_published_appservice_room_list
    (appservice_id network_id room_id : string) (visibility : PyVal) :=
  call (HandlerEditPublishedAppserviceRoomList appservice_id network_id
          room_id visibility)
    (handler_edit_published_appservice_room_list hs appservice_id network_id
       room_id visibility).

(** The double quote character, for messages that contain it. *)
Definition dquote : string := String (ascii_of_nat 34) EmptyString.

Definition missing_room_id_msg : string :=
  "Missing params: [" +:+ dquote +:+ "room_id" +:+ dquote +:+ "]".

(** *** [class ClientDirectoryServer] *)

Definition ClientDirectoryServer_on_GET (request : SynapseRequest)
    (room_alias : string) : M ServerState Response :=
  let! room_alias := from_string room_alias in
  let! res := get_association room_alias in
  ret (200, res).

Definition ClientDirectoryServer_on_PUT (request : SynapseRequest)
    (room_alias : string) : M ServerState Response :=
  let! room_alias := from_string room_alias in
  let! content := parse_json request in
  if negb (contains content "room_id") then
    raise (SynapseError 400 missing_room_id_msg (Some BAD_JSON))
  else
    log DEBUG "Got content: %s" [PyDict content] ;;;
    log DEBUG "Got room name: %s" [PyStr (RoomAlias_to_string hs room_alias)] ;;;
    let! room_id := getitem content "room_id" in
    let! servers :=
      if contains content "servers" then getitem content "servers"
      else ret PyNone in
    log DEBUG "Got room_id: %s" [room_id] ;;;
    log DEBUG "Got servers: %s" [servers] ;;;
    let! room := get_room room_id in
    match room with
    | None => raise (SynapseError 400 "Room does not exist" None)
    | Some _ =>
        let! requester := get_user_by_req request in
        create_association requester room_alias room_id servers ;;;
        ret (200, ∅)
    end.

(** In [on_DELETE] the variable [room_alias] holds the string of the URL
    until an assignment [room_alias = RoomAlias.from_string(room_alias)]
    rebinds it to the parsed alias; the assignment stands in the [try] body
    and again after the [try] statement.  A frame is the server state
    together with the current value of that variable. *)
Record Frame : Type := mkFrame {
  server : ServerState;
  room_alias_var : string + RoomAlias
}.

(** A call of a collaborator leaves the variable alone. *)
Definition in_server {A} (c : M ServerState A) : M Frame A :=
  fun f =>
    let '(r, s') := c (server f) in
    (r, {| server := s'; room_alias_var := room_alias_var f |}).

Definition read_room_alias : M Frame (string + RoomAlias) :=
  fun f => (Returns (room_alias_var f), f).

Definition assign_room_alias (a : RoomAlias) : M Frame unit :=
  fun f => (Returns tt, {| server := server f; room_alias_var := inr a |}).

(** Statements run with [room_alias] bound to [v] at their start. *)
Definition in_frame {A} (c : M Frame A) (v : string + RoomAlias)
    : M ServerState A :=
  fun s =>
    let '(r, f) := c {| server := s; room_alias_var := v |} in
    (r, server f).

(** [RoomAlias.from_string(room_alias)] on the current value of the
    variable. *)
Definition from_string_of (v : string + RoomAlias) : M ServerState RoomAlias :=
  match v with
  | inl s => from_string s
  | inr a => from_string_of_alias a
  end.

(** The body of the [try] statement of [on_DELETE]. *)
Definition ClientDirectoryServer_on_DELETE_try_body
    (request : SynapseRequest) : M Frame Response :=
  let! service := in_server (get_appservice_by_req request) in
  let! v := read_room_alias in
  let! room_alias := in_server (from_string_of v) in
  assign_room_alias room_alias ;;;
  in_server (delete_appservice_association service room_alias) ;;;
  in_server
    (log INFO "Application service at %s deleted alias %s"
       [ApplicationService.url service;
        PyStr (RoomAlias_to_string hs room_alias)]) ;;;
  ret (200, ∅).

(** The statements of [on_DELETE] after the [try] statement. *)
Definition ClientDirectoryServer_on_DELETE_after_try
    (request : SynapseRequest) : M Frame Response :=
  let! requester := in_server (get_user_by_req request) in
  let user := user requester in
  let! v := read_room_alias in
  let! room_alias := in_server (from_string_of v) in
  assign_room_alias room_alias ;;;
  in_server (delete_association requester room_alias) ;;;
  in_server
    (log INFO "User %s deleted alias %s"
       [PyStr (UserID_to_string hs user);
        PyStr (RoomAlias_to_string hs room_alias)]) ;;;
  ret (200, ∅).

(** The statements after the [try] statement, run while [room_alias] is
    still the string of the URL. *)
Definition ClientDirectoryServer_on_DELETE_user_path
    (request : SynapseRequest) (room_alias : string)
    : M ServerState Response :=
  in_frame (ClientDirectoryServer_on_DELETE_after_try request)
    (inl room_alias).

(** The body of the [try] statement, run from the start of the method. *)
Definition ClientDirectoryServer_on_DELETE_appservice_path
    (request : SynapseRequest) (room_alias : string)
    : M ServerState Response :=
  in_frame (ClientDirectoryServer_on_DELETE_try_body request)
    (inl room_alias).

Definition ClientDirectoryServer_on_DELETE (request : SynapseRequest)
    (room_alias : string) : M ServerState Response :=
  in_frame
    (try_except
       (ClientDirectoryServer_on_DELETE_try_body request)
       is_InvalidClientCredentialsError
       (ClientDirectoryServer_on_DELETE_after_try request))
    (inl room_alias).

(** *** [class ClientDirectoryListServer] *)

Definition ClientDirectoryListServer_on_GET (request : SynapseRequest)
    (room_id : string) : M ServerState Response :=
  let! room := get_room (PyStr room_id) in
  match room with
  | None => raise (NotFoundError "Unknown room")
  | Some room =>
      let! is_public := getitem room "is_public" in
      ret (200, {[ "visibility" :=
                     PyStr (if truthy is_public then "public" else "private") ]})
  end.

Definition ClientDirectoryListServer_on_PUT (request : SynapseRequest)
    (room_id : string) : M ServerState Response :=
  let! requester := get_user_by_req request in
  let! content := parse_json request in
  let visibility := get content "visibility" (PyStr "public") in
  edit_published_room_list requester room_id visibility ;;;
  ret (200, ∅).

Definition ClientDirectoryListServer_on_DELETE (request : SynapseRequest)
    (room_id : string) : M ServerState Response :=
  let! requester := get_user_by_req request in
  edit_published_room_list requester room_id (PyStr "private") ;;;
  ret (200, ∅).

(** *** [class ClientAppserviceDirectoryListServer] *)

Definition _edit_appservice_room_visibility (request : SynapseRequest)
    (network_id room_id : string) (visibility : PyVal)
    : M ServerState Response :=
  let! requester := get_user_by_req request in
  let! is_server_admin := is_server_admin (user requester) in
  let! appservice_id :=
    match app_service requester with
    | Some service => ret (ApplicationService.id service)
    | None =>
        if is_server_admin && eq_str visibility "private" then
          ret EmptyString
        else
          raise (AuthError 403
                   "Only appservices can edit the appservice published room list")
    end in
  edit_published_appservice_room_list appservice_id network_id room_id
    visibility ;;;
  ret (200, ∅).

Definition ClientAppserviceDirectoryListServer_on_PUT
    (request : SynapseRequest) (network_id room_id : string)
    : M ServerState Response :=
  let! content := parse_json request in
  let visibility := get content "visibility" (PyStr "public") in
  _edit_appservice_room_visibility request network_id room_id visibility.

Definition ClientAppserviceDirectoryListServer_on_DELETE
    (request : SynapseRequest) (network_id room_id : string)
    : M ServerState Response :=
  _edit_appservice_room_visibility request network_id room_id
    (PyStr "private").

(** *** Vocabulary of the statements *)

(** What a servlet answers once the handler call [o] is over: the empty
    JSON object with status 200, or the handler's exception. *)
Definition respond (o : outcome unit) : outcome Response :=
  match o with
  | Returns _ => Returns (200, ∅)
  | Raises e => Raises e
  end.

(** What a run shows to the client and to the rest of the server: the
    response, the server state, and the calls made, apart from the reading
    of the request body. *)
Definition observation (r : outcome Response * ServerState)
    : outcome Response * W * list Event :=
  (r.1, world r.2,
   filter (fun ev => component ev <> Http) (calls r.2)).

(** The calls that only the user path of the alias [on_DELETE] makes. *)
Definition on_user_path (ev : Event) : bool :=
  match ev with
  | AuthGetUserByReq _ | HandlerDeleteAssociation _ _ => true
  | _ => false
  end.

End Servlets.

Arguments Requester : clear implicits.
Arguments Event : clear implicits.
Arguments HomeServer : clear implicits.
Arguments ServerState : clear implicits.

End Directory.

(** ** The configuration section of [synapse/config/account_validity.py] *)

Module AccountValidity.

Definition LEGACY_ACCOUNT_VALIDITY_IN_USE : string := "
You are using the deprecated account validity feature. It is recommended to change your
configuration to be using one or more modules instead. This feature will be removed in a
future version of Synapse, at which point it will only be available through custom
modules.
See the sample documentation file for more information:
https://github.com/matrix-org/synapse/blob/master/docs/sample_config.yaml
--------------------------------------------------------------------------------------".

Section Config.

(** The content of a template file and the result of loading a module
    belong to [Config.read_templates] and to
    [synapse.util.module_loader.load_module]. *)
Context {Template LoadedModule : Type}.

(** One entry per call that leaves the class. *)
Inductive Event : Type :=
| ReadTemplates (filenames : list string)
| LoggerWarning (msg : string)
| ParseDuration (value : PyVal)
| LoadModule (provider : gmap string PyVal) (config_path : list string).

(** What the class inherits from [Config] or imports. *)
Record Base : Type := mkBase {
  read_templates : list string -> outcome (list Template);
  parse_duration : PyVal -> outcome Z;
  load_module : gmap string PyVal -> list string -> outcome LoadedModule
}.

(** The attributes of [self].  [public_baseurl] is set by the server
    section of the configuration; an attribute that the methods below
    assign on some paths only is [None] until it is assigned. *)
Record AccountValidityConfig : Type := mkConfig {
  public_baseurl : PyVal;
  account_validity_enabled : PyVal;
  account_validity_renew_by_email_enabled : bool;
  account_validity_account_renewed_template : option Template;
  account_validity_account_previously_renewed_template : option Template;
  account_validity_invalid_token_template : option Template;
  account_validity_modules : list LoadedModule;
  account_validity_period : option Z;
  account_validity_renew_at : option Z;
  account_validity_renew_email_subject : option PyVal;
  account_validity_startup_job_max_delta : option spec_float
}.

Record ConfigState : Type := mkState {
  self : AccountValidityConfig;
  calls : list Event
}.

(** Attribute assignment, one function per attribute. *)
Definition set_enabled (v : PyVal) (c : AccountValidityConfig) :=
  mkConfig (public_baseurl c) v
    (account_validity_renew_by_email_enabled c)
    (account_validity_account_renewed_template c)
    (account_validity_account_previously_renewed_template c)
    (account_validity_invalid_token_template c)
    (account_validity_modules c) (account_validity_period c)
    (account_validity_renew_at c) (account_validity_renew_email_subject c)
    (account_validity_startup_job_max_delta c).

Definition set_renew_by_email_enabled (b : bool) (c : AccountValidityConfig) :=
  mkConfig (public_baseurl c) (account_validity_enabled c) b
    (account_validity_account_renewed_template c)
    (account_validity_account_previously_renewed_template c)
    (account_validity_invalid_token_template c)
    (account_validity_modules c) (account_validity_period c)
    (account_validity_renew_at c) (account_validity_renew_email_subject c)
    (account_validity_startup_job_max_delta c).

Definition set_templates (t1 t2 t3 : Template) (c : AccountValidityConfig) :=
  mkConfig (public_baseurl c) (account_validity_enabled c)
    (account_validity_renew_by_email_enabled c)
    (Some t1) (Some t2) (Some t3)
    (account_validity_modules c) (account_validity_period c)
    (account_validity_renew_at c) (account_validity_renew_email_subject c)
    (account_validity_startup_job_max_delta c).

Definition set_modules (ms : list LoadedModule) (c : AccountValidityConfig) :=
  mkConfig (public_baseurl c) (account_validity_enabled c)
    (account_validity_renew_by_email_enabled c)
    (account_validity_account_renewed_template c)
    (account_validity_account_previously_renewed_template c)
    (account_validity_invalid_token_template c)
    ms (account_validity_period c)
    (account_validity_renew_at c) (account_validity_renew_email_subject c)
    (account_validity_startup_job_max_delta c).

Definition set_period (p : Z) (c : AccountValidityConfig) :=
  mkConfig (public_baseurl c) (account_validity_enabled c)
    (account_validity_renew_by_email_enabled c)
    (account_validity_account_renewed_template c)
    (account_validity_account_previously_renewed_template c)
    (account_validity_invalid_token_template c)
    (account_validity_modules c) (Some p)
    (account_validity_renew_at c) (account_validity_renew_email_subject c)
    (account_validity_startup_job_max_delta c).

Definition set_renew_at (p : Z) (c : AccountValidityConfig) :=
  mkConfig (public_baseurl c) (account_validity_enabled c)
    (account_validity_renew_by_email_enabled c)
    (account_validity_account_renewed_template c)
    (account_validity_account_previously_renewed_template c)
    (account_validity_invalid_token_template c)
    (account_validity_modules c) (account_validity_period c)
    (Some p) (account_validity_renew_email_subject c)
    (account_validity_startup_job_max_delta c).

Definition set_renew_email_subject (v : PyVal) (c : AccountValidityConfig) :=
  mkConfig (public_baseurl c) (account_validity_enabled c)
    (account_validity_renew_by_email_enabled c)
    (account_validity_account_renewed_template c)
    (account_validity_account_previously_renewed_template c)
    (account_validity_invalid_token_template c)
    (account_validity_modules c) (account_validity_period c)
    (account_validity_renew_at c) (Some v)
    (account_validity_startup_job_max_delta c).

Definition set_startup_job_max_delta (f : spec_float)
    (c : AccountValidityConfig) :=
  mkConfig (public_baseurl c) (account_validity_enabled c)
    (account_validity_renew_by_email_enabled c)
    (account_validity_account_renewed_template c)
    (account_validity_account_previously_renewed_template c)
    (account_validity_invalid_token_template c)
    (account_validity_modules c) (account_validity_period c)
    (account_validity_renew_at c) (account_validity_renew_email_subject c)
    (Some f).

(** [self.attr = v] and [self.attr]. *)
Definition setattr (f : AccountValidityConfig -> AccountValidityConfig)
    : M ConfigState unit :=
  fun s => (Returns tt, {| self := f (self s); calls := calls s |}).

Definition getattr {A} (f : AccountValidityConfig -> A) : M ConfigState A :=
  fun s => (Returns (f (self s)), s).

Definition getattr_opt {A} (name : string)
    (f : AccountValidityConfig -> option A) : M ConfigState A :=
  fun s =>
    match f (self s) with
    | Some a => (Returns a, s)
    | None => (Raises (OtherError "AttributeError" name), s)
    end.

Definition call {A} (ev : Event) (r : outcome A) : M ConfigState A :=
  fun s => (r, {| self := self s; calls := calls s ++ [ev] |}).

(** [d[k]] *)
Definition getitem (d : gmap string PyVal) (k : string)
    : M ConfigState PyVal :=
  match d !! k with
  | Some v => ret v
  | None => raise (OtherError "KeyError" k)
  end.

(** [a, b, c = l] *)
Definition unpack3 {A} (l : list A) : M ConfigState (A * A * A) :=
  match l with
  | [a; b; c] => ret (a, b, c)
  | _ :: _ :: _ :: _ :: _ =>
      raise (OtherError "ValueError" "too many values to unpack (expected 3)")
  | _ => raise (OtherError "ValueError" "not enough values to unpack")
  end.

(** [period * 10.0 / 100.0] for an [int] period: the conversion of an
    integer beyond the range of a float raises [OverflowError]. *)
Definition startup_job_max_delta (period : Z) : M ConfigState spec_float :=
  match float_of_int period with
  | S754_infinity _ =>
      raise (OtherError "OverflowError" "int too large to convert to float")
  | f => ret (float_div (float_mul f (float_of_int 10)) (float_of_int 100))
  end.

(** [("account_validity", "<item %i>" % i)] *)
Definition config_path (i : nat) : list string :=
  ["account_validity"; "<item " +:+ pretty i +:+ ">"].

Variable base : Base.

Definition read_legacy_config (account_validity_config : gmap string PyVal)
    : M ConfigState unit :=
  call (LoggerWarning LEGACY_ACCOUNT_VALIDITY_IN_USE) (Returns tt) ;;;
  setattr (set_enabled (get account_validity_config "enabled" (PyBool false))) ;;;
  setattr (set_renew_by_email_enabled
             (contains account_validity_config "renew_at")) ;;;
  let! enabled := getattr account_validity_enabled in
  (if truthy enabled then
     (if contains account_validity_config "period" then
        let! v := getitem account_validity_config "period" in
        let! p := call (ParseDuration v) (parse_duration base v) in
        setattr (set_period p)
      else
        raise (ConfigError "'period' is required when using account validity"
                 None)) ;;;
     (if contains account_validity_config "renew_at" then
        let! v := getitem account_validity_config "renew_at" in
        let! p := call (ParseDuration v) (parse_duration base v) in
        setattr (set_renew_at p)
      else ret tt) ;;;
     (if contains account_validity_config "renew_email_subject" then
        let! v := getitem account_validity_config "renew_email_subject" in
        setattr (set_renew_email_subject v)
      else
        setattr (set_renew_email_subject (PyStr "Renew your %(app)s account"))) ;;;
     let! period := getattr_opt "account_validity_period"
                      account_validity_period in
     let! delta := startup_job_max_delta period in
     setattr (set_startup_job_max_delta delta)
   else ret tt) ;;;
  let! renew_by_email := getattr account_validity_renew_by_email_enabled in
  if renew_by_email then
    let! public_baseurl := getattr public_baseurl in
    if negb (truthy public_baseurl) then
      raise (ConfigError "Can't send renewal emails without 'public_baseurl'"
               None)
    else ret tt
  else ret tt.

(** The [for i, module in enumerate(...)] loop of [read_config], from
    index [i] on. *)
Fixpoint load_modules (i : nat) (l : list PyVal) : M ConfigState unit :=
  match l with
  | [] => ret tt
  | module :: rest =>
      let config_path := config_path i in
      match module with
      | PyDict module =>
          let! loaded := call (LoadModule module config_path)
                           (load_module base module config_path) in
          let! modules := getattr account_validity_modules in
          setattr (set_modules (modules ++ [loaded])) ;;;
          load_modules (S i) rest
      | _ => raise (ConfigError "expected a mapping" (Some config_path))
      end
  end.

Definition template_names : list string :=
  ["account_renewed.html"; "account_previously_renewed.html";
   "invalid_token.html"].

Definition read_config (config : gmap string PyVal) : M ConfigState unit :=
  setattr (set_enabled (PyBool false)) ;;;
  setattr (set_renew_by_email_enabled false) ;;;
  let! templates := call (ReadTemplates template_names)
                      (read_templates base template_names) in
  let! '(t1, t2, t3) := unpack3 templates in
  setattr (set_templates t1 t2 t3) ;;;
  setattr (set_modules []) ;;;
  let account_validity_config := get config "account_validity" PyNone in
  match account_validity_config with
  | PyNone => ret tt
  | PyDict d => read_legacy_config d
  | PyList l => load_modules 0 l
  | _ => raise (ConfigError "account_validity syntax is incorrect" None)
  end.

(** *** Vocabulary of the statements *)

(** [keeps f c]: running [c] does not change the attribute [f] of
    [self]. *)
Definition keeps {A B} (f : AccountValidityConfig -> B)
    (c : M ConfigState A) : Prop :=
  forall s, f (self (c s).2) = f (self s).

(** [self] once [read_config] has run its unconditional assignments. *)
Definition initialised (t1 t2 t3 : Template) (s : ConfigState)
    : ConfigState :=
  mkState
    (set_modules []
       (set_templates t1 t2 t3
          (set_renew_by_email_enabled false
             (set_enabled (PyBool false) (self s)))))
    (calls s ++ [ReadTemplates template_names]).

(** [emits P c]: every call that running [c] adds to the trace satisfies
    [P]. *)
Definition emits {A} (P : Event -> Prop) (c : M ConfigState A) : Prop :=
  forall s, exists new, calls (c s).2 = calls s ++ new /\ Forall P new.

(** [loads i ds]: the module loader returns on every mapping of [ds], the
    first of which stands at index [i] of the list. *)
Definition loads (i : nat) (ds : list (gmap string PyVal)) : Prop :=
  forall j d, ds !! j = Some d ->
              returned (load_module base d (config_path (i + j))) = true.

(** The call [parse_duration(d[k])] for [k] one of [period] and
    [renew_at]. *)
Definition parses_duration_of (d : gmap string PyVal) (ev : Event) : Prop :=
  exists k v, (k = "period" \/ k = "renew_at") /\ d !! k = Some v /\
              ev = ParseDuration v.


End Config.

Arguments Base : clear implicits.
Arguments AccountValidityConfig : clear implicits.
Arguments ConfigState : clear implicits.

End AccountValidity.

(** ** A small home server and a small configuration base

    Concrete collaborators, on which the servlets and the configuration
    loader can be run. *)

Module Sample.

Import Directory.

Record Request : Type := mkRequest {
  access_token : string;
  body : option (gmap string PyVal)
}.

(** Rooms by identifier, aliases by name, and the appservice room list as
    (appservice, network, room) triples. *)
Record World : Type := mkWorld {
  rooms : gmap string (gmap string PyVal);
  aliases : gmap string PyVal;
  appservice_rooms : list (string * string * string)
}.

Definition irc_bridge : ApplicationService.t :=
  ApplicationService.mk "irc" (PyStr "http://localhost:9999").

Definition admin : Requester string := mkRequester "@admin:example.org" None.
Definition alice : Requester string := mkRequester "@alice:example.org" None.
Definition bridge : Requester string :=
  mkRequester "@irc:example.org" (Some irc_bridge).

Definition invalid_token : exn :=
  InvalidClientCredentialsError "Invalid access token passed.".

Definition get_user_by_req (request : Request) (w : World)
    : outcome (Requester string) * World :=
  if String.eqb (access_token request) "admin_token" then (Returns admin, w)
  else if String.eqb (access_token request) "alice_token" then (Returns alice, w)
  else if String.eqb (access_token request) "as_token" then (Returns bridge, w)
  else (Raises invalid_token, w).

Definition get_appservice_by_req (request : Request) (w : World)
    : outcome ApplicationService.t * World :=
  if String.eqb (access_token request) "as_token" then (Returns irc_bridge, w)
  else (Raises invalid_token, w).

Definition from_string (s : string) : outcome string :=
  match s with
  | String "#" _ => Returns s
  | _ => Raises (SynapseError 400 "Expected RoomAlias string to start with '#'" None)
  end.

(** A parsed alias is not a string: parsing it again fails. *)
Definition not_a_string : exn :=
  OtherError "TypeError" "object of type 'RoomAlias' has no len()".

Definition from_string_of_alias (a : string) : outcome string :=
  Raises not_a_string.

Definition parse_body (request : Request) : outcome (gmap string PyVal) :=
  match body request with
  | Some content => Returns content
  | None => Raises (SynapseError 400 "Content not JSON." (Some (OtherCode "M_NOT_JSON")))
  end.

Definition get_room (room_id : PyVal) (w : World)
    : outcome (option (gmap string PyVal)) * World :=
  match room_id with
  | PyStr r => (Returns (rooms w !! r), w)
  | _ => (Returns None, w)
  end.

Definition get_association (a : string) (w : World)
    : outcome (gmap string PyVal) * World :=
  match aliases w !! a with
  | Some r => (Returns {[ "room_id" := r ]}, w)
  | None => (Raises (SynapseError 404 "Room alias not found"
                       (Some (OtherCode "M_NOT_FOUND"))), w)
  end.

Definition create_association (r : Requester string) (a : string)
    (room_id servers : PyVal) (w : World) : outcome unit * World :=
  match aliases w !! a with
  | Some _ => (Raises (SynapseError 409 "Room alias already exists"
                         (Some (OtherCode "M_UNKNOWN"))), w)
  | None => (Returns tt,
             mkWorld (rooms w) (<[a := room_id]> (aliases w)) (appservice_rooms w))
  end.

Definition delete_alias (a : string) (w : World) : outcome unit * World :=
  match aliases w !! a with
  | Some _ => (Returns tt,
               mkWorld (rooms w) (delete a (aliases w)) (appservice_rooms w))
  | None => (Raises (NotFoundError "Unknown room alias"), w)
  end.

Definition edit_published_room_list (r : Requester string) (room_id : string)
    (visibility : PyVal) (w : World) : outcome unit * World :=
  match rooms w !! room_id with
  | Some room =>
      (Returns tt,
       mkWorld (<[room_id :=
                   <["is_public" := PyBool (eq_str visibility "public")]> room]>
                  (rooms w))
         (aliases w) (appservice_rooms w))
  | None => (Raises (SynapseError 400 "Unknown room" None), w)
  end.

Definition same_entry (x y : string * string * string) : bool :=
  String.eqb x.1.1 y.1.1 && String.eqb x.1.2 y.1.2 && String.eqb x.2 y.2.

Definition edit_published_appservice_room_list
    (appservice_id network_id room_id : string) (visibility : PyVal)
    (w : World) : outcome unit * World :=
  let entry := (appservice_id, network_id, room_id) in
  let others := List.filter (fun x => negb (same_entry entry x))
                  (appservice_rooms w) in
  (Returns tt,
   mkWorld (rooms w) (aliases w)
     (if eq_str visibility "public" then entry :: others else others)).

Definition hs : HomeServer Request string string World := {|
  RoomAlias_from_string := from_string;
  RoomAlias_from_string_of_alias := from_string_of_alias;
  RoomAlias_to_string := fun a => a;
  UserID_to_string := fun u => u;
  parse_json_object_from_request := parse_body;
  store_get_room := get_room;
  auth_get_user_by_req := get_user_by_req;
  auth_get_appservice_by_req := get_appservice_by_req;
  auth_is_server_admin :=
    fun u w => (Returns (String.eqb u "@admin:example.org"), w);
  handler_get_association := get_association;
  handler_create_association := create_association;
  handler_delete_association := fun _ a => delete_alias a;
  handler_delete_appservice_association := fun _ a => delete_alias a;
  handler_edit_published_room_list := edit_published_room_list;
  handler_edit_published_appservice_room_list :=
    edit_published_appservice_room_list
|}.

(** One private room with one alias. *)
Definition w0 : World := {|
  rooms := {[ "!room:example.org" :=
                {[ "room_id" := PyStr "!room:example.org";
                   "is_public" := PyInt 0;
                   "creator" := PyStr "@alice:example.org" ]} ]};
  aliases := {[ "#lobby:example.org" := PyStr "!room:example.org" ]};
  appservice_rooms := []
|}.

Definition s0 : ServerState Request string string World := mkState w0 [].

Definition request (token : string) (content : option (gmap string PyVal))
    : Request := mkRequest token content.

(** The configuration base: a template is its file name, a duration is an
    integer number of milliseconds, and a loaded module is the name under
    the [module] key. *)
Definition base : AccountValidity.Base string string := {|
  AccountValidity.read_templates := fun names => Returns names;
  AccountValidity.parse_duration := fun v =>
    match v with
    | PyInt z => Returns z
    | _ => Raises (OtherError "ValueError" "invalid duration")
    end;
  AccountValidity.load_module := fun provider path =>
    match provider !! "module" with
    | Some (PyStr name) => Returns name
    | _ => Raises (ConfigError "expected a string" (Some (path ++ ["module"])))
    end
|}.

(** [self] before [read_config], without and with a public base URL. *)
Definition fresh (public_baseurl : PyVal)
    : AccountValidity.ConfigState string string :=
  AccountValidity.mkState
    (AccountValidity.mkConfig public_baseurl (PyBool false) false None None None
       [] None None None None)
    [].

(** The home server [hs] with faults injected: the appservice lookup, the
    appservice deletion and the admin check fail with the given exception,
    when one is given. *)
Definition faulty (on_lookup on_delete on_admin : option exn)
    : HomeServer Request string string World := {|
  RoomAlias_from_string := from_string;
  RoomAlias_from_string_of_alias := from_string_of_alias;
  RoomAlias_to_string := fun a => a;
  UserID_to_string := fun u => u;
  parse_json_object_from_request := parse_body;
  store_get_room := get_room;
  auth_get_user_by_req := get_user_by_req;
  auth_get_appservice_by_req := fun request w =>
    match on_lookup with
    | Some e => (Raises e, w)
    | None => get_appservice_by_req request w
    end;
  auth_is_server_admin := fun u w =>
    match on_admin with
    | Some e => (Raises e, w)
    | None => (Returns (String.eqb u "@admin:example.org"), w)
    end;
  handler_get_association := get_association;
  handler_create_association := create_association;
  handler_delete_association := fun _ a => delete_alias a;
  handler_delete_appservice_association := fun _ a w =>
    match on_delete with
    | Some e => (Raises e, w)
    | None => delete_alias a w
    end;
  handler_edit_published_room_list := edit_published_room_list;
  handler_edit_published_appservice_room_list :=
    edit_published_appservice_room_list
|}.

Definition database_down : exn := OtherError "OperationalError" "database is down".

(** A configuration base whose template directory is missing. *)
Definition base_without_templates : AccountValidity.Base string string := {|
  AccountValidity.read_templates := fun names =>
    Raises (ConfigError "Configured template directory does not exist" None);
  AccountValidity.parse_duration := AccountValidity.parse_duration base;
  AccountValidity.load_module := AccountValidity.load_module base
|}.


End Sample.

(** ** Python values and the monad *)

Module PyFacts.

Lemma contains_true (d : gmap string PyVal) (k : string) (v : PyVal) :
  d !! k = Some v -> contains d k = true.
Proof.
  intros H. unfold contains. apply bool_decide_eq_true. rewrite H. eauto.
Qed.

Lemma contains_false (d : gmap string PyVal) (k : string) :
  d !! k = None -> contains d k = false.
Proof.
  intros H. unfold contains. apply bool_decide_eq_false. rewrite H.
  intros [v Hv]. discriminate.
Qed.

Lemma eq_str_true (v : PyVal) (s : string) :
  eq_str v s = true <-> v = PyStr s.
Proof.
  destruct v; simpl; try (split; intros; discriminate).
  rewrite String.eqb_eq. split; [intros -> | intros [= ->]]; reflexivity.
Qed.


Lemma bind_returns {St A B} (c : M St A) (k : A -> M St B) s a s' :
  c s = (Returns a, s') -> bind c k s = k a s'.
Proof. intros H. unfold bind. rewrite H. reflexivity. Qed.

Lemma bind_raises {St A B} (c : M St A) (k : A -> M St B) s e s' :
  c s = (Raises e, s') -> bind c k s = (Raises e, s').
Proof. intros H. unfold bind. rewrite H. reflexivity. Qed.

End PyFacts.

(** ** Properties of the directory servlets *)

Module DirectoryFacts.

Import Directory PyFacts.

Section Facts.

Context {SynapseRequest RoomAlias UserID W : Type}.
Variable hs : HomeServer SynapseRequest RoomAlias UserID W.

Local Abbreviation State := (ServerState SynapseRequest RoomAlias UserID W).

(** Closes an equation between two observations once both runs are
    evaluated: the filter is pushed through the appended calls. *)
Ltac same_observation :=
  rewrite !filter_app; cbn; rewrite ?app_nil_r; reflexivity.

Lemma call_run {A} ev (f : W -> outcome A * W) (s : State) r w' :
  f (world s) = (r, w') ->
  call ev f s = (r, mkState w' (calls s ++ [ev])).
Proof. intros H. unfold call. rewrite H. reflexivity. Qed.

Lemma call_pure_run {A} ev (r : outcome A) (s : State) :
  call_pure ev r s = (r, mkState (world s) (calls s ++ [ev])).
Proof. reflexivity. Qed.

Lemma log_run level fmt args (s : State) :
  log level fmt args s
  = (Returns tt, mkState (world s) (calls s ++ [LoggerCall level fmt args])).
Proof. reflexivity. Qed.

Lemma getitem_run (d : gmap string PyVal) k v (s : State) :
  d !! k = Some v -> getitem d k s = (Returns v, s).
Proof. intros H. unfold getitem. rewrite H. reflexivity. Qed.

(** The alias [on_PUT] up to the room lookup, for a body that names a
    room: the alias is parsed, the body is read, four lines are logged and
    the room is looked up. *)
Lemma on_PUT_until_get_room request room_alias (s : State) a content
    room_id room w1 :
  RoomAlias_from_string hs room_alias = Returns a ->
  parse_json_object_from_request hs request = Returns content ->
  content !! "room_id" = Some room_id ->
  store_get_room hs room_id (world s) = (Returns room, w1) ->
  let servers := get content "servers" PyNone in
  let s1 := mkState w1
    (calls s ++
     [RoomAliasFromString room_alias;
      ParseJsonObjectFromRequest request;
      LoggerCall DEBUG "Got content: %s" [PyDict content];
      LoggerCall DEBUG "Got room name: %s" [PyStr (RoomAlias_to_string hs a)];
      LoggerCall DEBUG "Got room_id: %s" [room_id];
      LoggerCall DEBUG "Got servers: %s" [servers];
      StoreGetRoom room_id]) in
  ClientDirectoryServer_on_PUT hs request room_alias s =
    match room with
    | None => (Raises (SynapseError 400 "Room does not exist" None), s1)
    | Some _ =>
        (let! requester := get_user_by_req hs request in
         create_association hs requester a room_id servers ;;;
         ret (200, ∅)) s1
    end.
Proof.
  intros Ha Hc Hr Hg servers s1.
  unfold ClientDirectoryServer_on_PUT.
  erewrite bind_returns
    by (unfold from_string; rewrite call_pure_run, Ha; reflexivity).
  erewrite bind_returns
    by (unfold parse_json; rewrite call_pure_run, Hc; reflexivity).
  rewrite (contains_true _ _ _ Hr). cbn [negb].
  erewrite bind_returns by apply log_run.
  erewrite bind_returns by apply log_run.
  erewrite bind_returns by (apply getitem_run; exact Hr).
  assert (Hs : forall (t : State),
    (if contains content "servers" then getitem content "servers"
     else ret PyNone) t = (Returns servers, t)).
  { intros t. unfold servers, get, contains, getitem.
    destruct (content !! "servers") as [v|] eqn:E; reflexivity. }
  erewrite bind_returns by apply Hs.
  erewrite bind_returns by apply log_run.
  erewrite bind_returns by apply log_run.
  erewrite bind_returns
    by (unfold get_room; apply call_run; cbn; exact Hg).
  cbn. rewrite <- !app_assoc. cbn.
  destruct room; reflexivity.
Qed.

(** *** The alias servlet: [PUT] *)

(** The message of the missing-parameter error, character by character:
    the key is between double quotes, inside square brackets. *)
Remark missing_room_id_msg_chars :
  map nat_of_ascii (list_ascii_of_string missing_room_id_msg)
  = [77; 105; 115; 115; 105; 110; 103; 32; 112; 97; 114; 97; 109; 115; 58;
     32; 91; 34; 114; 111; 111; 109; 95; 105; 100; 34; 93]%nat.
Proof. reflexivity. Qed.

(** C9. A [PUT] on the alias endpoint whose parsed JSON body has no
    [room_id] key fails with [SynapseError] 400, errcode [BAD_JSON], and
    the missing-parameter message; the only calls made are the
    parsing of the alias and the reading of the body, so the room store,
    the authenticator and the directory handler are not consulted and the
    server state is unchanged. *)
Theorem alias_put_without_room_id_is_bad_json request room_alias (s : State)
    a content :
  RoomAlias_from_string hs room_alias = Returns a ->
  parse_json_object_from_request hs request = Returns content ->
  content !! "room_id" = None ->
  let new := [RoomAliasFromString room_alias;
              ParseJsonObjectFromRequest request] in
  ClientDirectoryServer_on_PUT hs request room_alias s =
    (Raises (SynapseError 400 missing_room_id_msg (Some BAD_JSON)),
     mkState (world s) (calls s ++ new)) /\
  Forall (fun ev => component ev <> Store /\ component ev <> Auth /\
                    component ev <> Handler) new.
Proof.
  intros Ha Hc Hr new. split.
  - unfold ClientDirectoryServer_on_PUT.
    erewrite bind_returns
      by (unfold from_string; rewrite call_pure_run, Ha; reflexivity).
    erewrite bind_returns
      by (unfold parse_json; rewrite call_pure_run, Hc; reflexivity).
    rewrite (contains_false _ _ Hr). cbn. rewrite <- app_assoc. reflexivity.
  - repeat constructor; discriminate.
Qed.

(** C4. A [PUT] on the alias endpoint whose body names a room that the
    room store does not have fails with [SynapseError] 400,
    [Room does not exist]; no call to the directory handler is made, so
    [create_association] does not run, and the server state is the one the
    room lookup left. *)
Theorem alias_put_unknown_room_creates_nothing request room_alias (s : State)
    a content room_id w1 :
  RoomAlias_from_string hs room_alias = Returns a ->
  parse_json_object_from_request hs request = Returns content ->
  content !! "room_id" = Some room_id ->
  store_get_room hs room_id (world s) = (Returns None, w1) ->
  let r := ClientDirectoryServer_on_PUT hs request room_alias s in
  r.1 = Raises (SynapseError 400 "Room does not exist" None) /\
  world r.2 = w1 /\
  exists new, calls r.2 = calls s ++ new /\
              Forall (fun ev => component ev <> Handler) new.
Proof.
  intros Ha Hc Hr Hg r. unfold r.
  rewrite (on_PUT_until_get_room _ _ _ _ _ _ _ _ Ha Hc Hr Hg). cbn.
  split; [reflexivity | split; [reflexivity |]].
  eexists. split; [reflexivity |]. repeat constructor; discriminate.
Qed.

(** C8. In the alias [on_PUT] the room lookup comes before the
    authentication of the requester: when the body names a room that the
    room store does not have, the run ends with [SynapseError] 400,
    [Room does not exist], right after the [get_room] call, whatever the
    authenticator would answer; the calls made are the alias parsing, the
    body reading, four log lines and the room lookup, none of them to the
    authenticator. *)
Theorem alias_put_unknown_room_precedes_authentication request room_alias
    (s : State) a content room_id w1 :
  RoomAlias_from_string hs room_alias = Returns a ->
  parse_json_object_from_request hs request = Returns content ->
  content !! "room_id" = Some room_id ->
  store_get_room hs room_id (world s) = (Returns None, w1) ->
  let new :=
    [RoomAliasFromString room_alias;
     ParseJsonObjectFromRequest request;
     LoggerCall DEBUG "Got content: %s" [PyDict content];
     LoggerCall DEBUG "Got room name: %s" [PyStr (RoomAlias_to_string hs a)];
     LoggerCall DEBUG "Got room_id: %s" [room_id];
     LoggerCall DEBUG "Got servers: %s" [get content "servers" PyNone];
     StoreGetRoom room_id] in
  ClientDirectoryServer_on_PUT hs request room_alias s =
    (Raises (SynapseError 400 "Room does not exist" None),
     mkState w1 (calls s ++ new)) /\
  Forall (fun ev => component ev <> Auth) new /\
  last new = Some (StoreGetRoom room_id).
Proof.
  intros Ha Hc Hr Hg new.
  rewrite (on_PUT_until_get_room _ _ _ _ _ _ _ _ Ha Hc Hr Hg).
  split; [reflexivity | split; [| reflexivity]].
  repeat constructor; discriminate.
Qed.

(** *** The alias servlet: [DELETE] *)

(** Unfolds the alias [on_DELETE], its two blocks and the frame down to the
    collaborators' answers. *)
Ltac unfold_alias_delete :=
  unfold ClientDirectoryServer_on_DELETE,
    ClientDirectoryServer_on_DELETE_appservice_path,
    ClientDirectoryServer_on_DELETE_user_path,
    ClientDirectoryServer_on_DELETE_try_body,
    ClientDirectoryServer_on_DELETE_after_try,
    in_frame, in_server, read_room_alias, assign_room_alias, from_string_of,
    from_string_of_alias, try_except, bind, from_string, get_user_by_req,
    get_appservice_by_req, delete_association, delete_appservice_association,
    log, call_pure, call, ret, raise in *.

(** C2. When the appservice lookup of the alias [on_DELETE] raises
    [InvalidClientCredentialsError], that error is not the result: the run
    continues as the user path, which authenticates the caller with
    [get_user_by_req] and, once the caller is authenticated and the alias
    parsed, calls [delete_association] with that requester.  When the
    lookup returns a service, and neither the alias parsing nor
    [delete_appservice_association] itself raises
    [InvalidClientCredentialsError], the run is the appservice path alone:
    no [get_user_by_req] and no [delete_association] call is made. *)
Theorem alias_delete_falls_through_to_user_path request room_alias
    (s : State) :
  (forall e w1,
     auth_get_appservice_by_req hs request (world s) = (Raises e, w1) ->
     is_InvalidClientCredentialsError e = true ->
     let s1 := mkState w1 (calls s ++ [AuthGetAppserviceByReq request]) in
     ClientDirectoryServer_on_DELETE hs request room_alias s
     = ClientDirectoryServer_on_DELETE_user_path hs request room_alias s1 /\
     forall requester w2 a o w3,
       auth_get_user_by_req hs request w1 = (Returns requester, w2) ->
       RoomAlias_from_string hs room_alias = Returns a ->
       handler_delete_association hs requester a w2 = (o, w3) ->
       exists logged,
         ClientDirectoryServer_on_DELETE hs request room_alias s
         = (respond o,
            mkState w3
              (calls s ++
               [AuthGetAppserviceByReq request;
                AuthGetUserByReq request;
                RoomAliasFromString room_alias;
                HandlerDeleteAssociation requester a] ++ logged)) /\
         Forall (fun ev => component ev = Logger) logged) /\
  (forall service w1,
     auth_get_appservice_by_req hs request (world s) = (Returns service, w1) ->
     (forall e, RoomAlias_from_string hs room_alias = Raises e ->
                is_InvalidClientCredentialsError e = false) ->
     (forall a w e w',
        handler_delete_appservice_association hs service a w = (Raises e, w') ->
        is_InvalidClientCredentialsError e = false) ->
     let r := ClientDirectoryServer_on_DELETE hs request room_alias s in
     r = ClientDirectoryServer_on_DELETE_appservice_path hs request
           room_alias s /\
     exists new, calls r.2 = calls s ++ new /\
                 Forall (fun ev => on_user_path ev = false) new).
Proof.
  split.
  - intros e w1 Hl He s1.
    assert (Hrun : ClientDirectoryServer_on_DELETE hs request room_alias s
      = ClientDirectoryServer_on_DELETE_user_path hs request room_alias s1).
    { unfold_alias_delete. cbn. rewrite Hl. cbn. rewrite He. reflexivity. }
    split; [exact Hrun |].
    intros requester w2 a o w3 Hu Ha Hd. rewrite Hrun.
    unfold_alias_delete. cbn. rewrite Hu. cbn. rewrite Ha. cbn. rewrite Hd.
    destruct o as [[] | e']; cbn.
    + eexists [_]. rewrite <- !app_assoc. cbn.
      split; [reflexivity | repeat constructor].
    + exists []. rewrite <- !app_assoc. cbn.
      split; [reflexivity | constructor].
  - intros service w1 Hl Hparse Hdel r. unfold r.
    unfold_alias_delete. cbn. rewrite Hl. cbn.
    destruct (RoomAlias_from_string hs room_alias) as [a | e] eqn:Ha; cbn.
    + destruct (handler_delete_appservice_association hs service a w1)
        as [[[] | e] w2] eqn:Hd; cbn.
      * rewrite <- !app_assoc. cbn.
        split; [reflexivity |]. eexists. split; [reflexivity |].
        repeat constructor.
      * rewrite (Hdel _ _ _ _ Hd). cbn. rewrite <- !app_assoc. cbn.
        split; [reflexivity |]. eexists. split; [reflexivity |].
        repeat constructor.
    + rewrite (Hparse _ eq_refl). cbn. rewrite <- !app_assoc. cbn.
      split; [reflexivity |]. eexists. split; [reflexivity |].
      repeat constructor.
Qed.

(** *** The published room list *)

(** C5. The visibility query answers from the room row that the room
    store returns: it fails with [NotFoundError] exactly when the store has
    no row for the room, and otherwise answers [public] exactly when the
    row's [is_public] flag is set and [private] exactly when it is not.
    The one call it makes is [get_room]; no appservice list is read. *)
Theorem visibility_query_reads_the_room_row request room_id (s : State)
    room w1 :
  store_get_room hs (PyStr room_id) (world s) = (Returns room, w1) ->
  let r := ClientDirectoryListServer_on_GET hs request room_id s in
  (r.1 = Raises (NotFoundError "Unknown room") <-> room = None) /\
  (forall row is_public,
     room = Some row -> row !! "is_public" = Some is_public ->
     (r.1 = Returns (200, {[ "visibility" := PyStr "public" ]})
      <-> truthy is_public = true) /\
     (r.1 = Returns (200, {[ "visibility" := PyStr "private" ]})
      <-> truthy is_public = false)) /\
  r.2 = mkState w1 (calls s ++ [StoreGetRoom (PyStr room_id)]).
Proof.
  intros Hg r. unfold r, ClientDirectoryListServer_on_GET.
  erewrite bind_returns by (unfold get_room; apply call_run; exact Hg).
  destruct room as [row |].
  - split; [| split].
    + unfold bind, getitem. destruct (row !! "is_public"); cbn;
        split; discriminate.
    + intros row' v [= <-] Hv.
      erewrite bind_returns by (apply getitem_run; exact Hv). cbn.
      destruct (truthy v); split; split; try reflexivity; try discriminate;
        intros [= H]; apply (f_equal (fun m => m !! "visibility")) in H;
        rewrite !lookup_singleton_eq in H; discriminate.
    + unfold bind, getitem. destruct (row !! "is_public"); reflexivity.
  - cbn. split; [split; reflexivity | split; [discriminate | reflexivity]].
Qed.


(** C10. On the global list endpoint, a [PUT] whose body has no
    [visibility] key calls [edit_published_room_list] with [public], and a
    [DELETE] calls it with [private].  On the appservice list endpoint, a
    [PUT] whose body has no [visibility] key runs
    [_edit_appservice_room_visibility] with [public], and a [DELETE] runs
    it with [private]; for a requester that the edit authorises this is a
    call of [edit_published_appservice_room_list] with [public] for the
    [PUT] of an appservice, and with [private] for the [DELETE] of an
    appservice or of a server admin.  On both endpoints a [DELETE] and a
    [PUT] whose body says [private] give the same response, leave the same
    server state and make the same calls, the reading of the body apart. *)
Theorem list_edit_default_and_delete request network_id room_id (s : State) :
  (forall requester w1 content o w2,
     auth_get_user_by_req hs request (world s) = (Returns requester, w1) ->
     parse_json_object_from_request hs request = Returns content ->
     content !! "visibility" = None ->
     handler_edit_published_room_list hs requester room_id (PyStr "public") w1
       = (o, w2) ->
     ClientDirectoryListServer_on_PUT hs request room_id s
     = (respond o,
        mkState w2
          (calls s ++
           [AuthGetUserByReq request;
            ParseJsonObjectFromRequest request;
            HandlerEditPublishedRoomList requester room_id (PyStr "public")])))
  /\
  (forall requester w1 o w2,
     auth_get_user_by_req hs request (world s) = (Returns requester, w1) ->
     handler_edit_published_room_list hs requester room_id (PyStr "private") w1
       = (o, w2) ->
     ClientDirectoryListServer_on_DELETE hs request room_id s
     = (respond o,
        mkState w2
          (calls s ++
           [AuthGetUserByReq request;
            HandlerEditPublishedRoomList requester room_id (PyStr "private")])))
  /\
  (forall content,
     parse_json_object_from_request hs request = Returns content ->
     content !! "visibility" = None ->
     ClientAppserviceDirectoryListServer_on_PUT hs request network_id room_id s
     = _edit_appservice_room_visibility hs request network_id room_id
         (PyStr "public")
         (mkState (world s) (calls s ++ [ParseJsonObjectFromRequest request])))
  /\
  ClientAppserviceDirectoryListServer_on_DELETE hs request network_id room_id s
  = _edit_appservice_room_visibility hs request network_id room_id
      (PyStr "private") s
  /\
  (forall content,
     parse_json_object_from_request hs request = Returns content ->
     content !! "visibility" = Some (PyStr "private") ->
     observation (ClientDirectoryListServer_on_PUT hs request room_id s)
     = observation (ClientDirectoryListServer_on_DELETE hs request room_id s)
     /\
     observation
       (ClientAppserviceDirectoryListServer_on_PUT hs request network_id
          room_id s)
     = observation
         (ClientAppserviceDirectoryListServer_on_DELETE hs request network_id
            room_id s))
  /\
  (forall content requester w1 admin w2 service o w3,
     parse_json_object_from_request hs request = Returns content ->
     content !! "visibility" = None ->
     auth_get_user_by_req hs request (world s) = (Returns requester, w1) ->
     auth_is_server_admin hs (user requester) w1 = (Returns admin, w2) ->
     app_service requester = Some service ->
     handler_edit_published_appservice_room_list hs
       (ApplicationService.id service) network_id room_id (PyStr "public") w2
       = (o, w3) ->
     ClientAppserviceDirectoryListServer_on_PUT hs request network_id room_id s
     = (respond o,
        mkState w3
          (calls s ++
           [ParseJsonObjectFromRequest request;
            AuthGetUserByReq request;
            AuthIsServerAdmin (user requester);
            HandlerEditPublishedAppserviceRoomList
              (ApplicationService.id service) network_id room_id
              (PyStr "public")])))
  /\
  (forall requester w1 admin w2 appservice_id o w3,
     auth_get_user_by_req hs request (world s) = (Returns requester, w1) ->
     auth_is_server_admin hs (user requester) w1 = (Returns admin, w2) ->
     match app_service requester with
     | Some service => appservice_id = ApplicationService.id service
     | None => admin = true /\ appservice_id = EmptyString
     end ->
     handler_edit_published_appservice_room_list hs appservice_id network_id
       room_id (PyStr "private") w2 = (o, w3) ->
     ClientAppserviceDirectoryListServer_on_DELETE hs request network_id
       room_id s
     = (respond o,
        mkState w3
          (calls s ++
           [AuthGetUserByReq request;
            AuthIsServerAdmin (user requester);
            HandlerEditPublishedAppserviceRoomList appservice_id network_id
              room_id (PyStr "private")]))).
Proof.
  split; [| split; [| split; [| split; [reflexivity |]]]];
    [| | | split; [| split]]; cycle 4.
  { intros content requester w1 admin w2 service o w3 Hc Hv Hu Ha Hs He.
    unfold ClientAppserviceDirectoryListServer_on_PUT,
      _edit_appservice_room_visibility, bind, get_user_by_req,
      is_server_admin, parse_json, edit_published_appservice_room_list,
      call_pure, call, ret, raise, get.
    cbn. rewrite Hc, Hv. cbn. rewrite Hu. cbn. rewrite Ha. cbn.
    rewrite Hs. cbn. rewrite He. rewrite <- !app_assoc.
    destruct o; reflexivity. }
  { intros requester w1 admin w2 appservice_id o w3 Hu Ha Hid He.
    unfold ClientAppserviceDirectoryListServer_on_DELETE,
      _edit_appservice_room_visibility, bind, get_user_by_req,
      is_server_admin, edit_published_appservice_room_list,
      call_pure, call, ret, raise.
    cbn. rewrite Hu. cbn. rewrite Ha. cbn.
    destruct (app_service requester) as [service |].
    - subst appservice_id. cbn. rewrite He. rewrite <- !app_assoc.
      destruct o; reflexivity.
    - destruct Hid as [-> ->]. cbn. rewrite He. rewrite <- !app_assoc.
      destruct o; reflexivity. }
  - intros requester w1 content o w2 Hu Hc Hv He.
    unfold ClientDirectoryListServer_on_PUT.
    erewrite bind_returns
      by (unfold get_user_by_req; apply call_run; exact Hu).
    erewrite bind_returns
      by (unfold parse_json; rewrite call_pure_run, Hc; reflexivity).
    unfold get. rewrite Hv. cbn.
    unfold bind, edit_published_room_list, call. cbn. rewrite He.
    rewrite <- !app_assoc. destruct o; reflexivity.
  - intros requester w1 o w2 Hu He.
    unfold ClientDirectoryListServer_on_DELETE.
    erewrite bind_returns
      by (unfold get_user_by_req; apply call_run; exact Hu).
    unfold bind, edit_published_room_list, call. cbn. rewrite He.
    rewrite <- !app_assoc. destruct o; reflexivity.
  - intros content Hc Hv.
    unfold ClientAppserviceDirectoryListServer_on_PUT.
    erewrite bind_returns
      by (unfold parse_json; rewrite call_pure_run, Hc; reflexivity).
    unfold get. rewrite Hv. reflexivity.
  - intros content Hc Hv. split.
    { unfold ClientDirectoryListServer_on_PUT,
      ClientDirectoryListServer_on_DELETE, observation, bind,
      get_user_by_req, parse_json, edit_published_room_list, call_pure, call,
      ret, get.
    cbn. rewrite Hc, Hv. cbn.
    destruct (auth_get_user_by_req hs request (world s))
      as [[requester | e] w1]; cbn; [| reflexivity].
    destruct (handler_edit_published_room_list hs requester room_id
                (PyStr "private") w1) as [[[] | e] w2]; cbn;
      same_observation. }
    unfold ClientAppserviceDirectoryListServer_on_PUT,
      ClientAppserviceDirectoryListServer_on_DELETE,
      _edit_appservice_room_visibility, observation, bind,
      get_user_by_req, is_server_admin, parse_json,
      edit_published_appservice_room_list, call_pure, call, ret, raise, get.
    cbn. rewrite Hc, Hv. cbn.
    destruct (auth_get_user_by_req hs request (world s))
      as [[requester | e] w1]; cbn;
      [| same_observation].
    destruct (auth_is_server_admin hs (user requester) w1)
      as [[admin | e] w2]; cbn;
      [| same_observation].
    destruct (app_service requester) as [service |]; cbn.
    + destruct (handler_edit_published_appservice_room_list hs
                  (ApplicationService.id service) network_id room_id
                  (PyStr "private") w2) as [[[] | e] w3]; cbn;
        same_observation.
    + destruct admin; cbn; [| same_observation].
      destruct (handler_edit_published_appservice_room_list hs EmptyString
                  network_id room_id (PyStr "private") w2)
        as [[[] | e] w3]; cbn;
        same_observation.
Qed.

(** *** Further properties of the alias servlet *)

(** Unfolds the servlets and the monad down to the collaborators' answers. *)
Ltac unfold_servlets :=
  unfold ClientDirectoryServer_on_GET, ClientDirectoryServer_on_PUT,
    ClientDirectoryServer_on_DELETE,
    ClientDirectoryServer_on_DELETE_appservice_path,
    ClientDirectoryServer_on_DELETE_user_path,
    ClientDirectoryListServer_on_GET, ClientDirectoryListServer_on_PUT,
    ClientDirectoryListServer_on_DELETE,
    ClientAppserviceDirectoryListServer_on_PUT,
    ClientAppserviceDirectoryListServer_on_DELETE,
    ClientDirectoryServer_on_DELETE_try_body,
    ClientDirectoryServer_on_DELETE_after_try,
    in_frame, in_server, read_room_alias, assign_room_alias, from_string_of,
    from_string_of_alias,
    _edit_appservice_room_visibility, try_except, bind, from_string,
    parse_json, get_room, get_user_by_req, get_appservice_by_req,
    is_server_admin, get_association, create_association, delete_association,
    delete_appservice_association, edit_published_room_list,
    edit_published_appservice_room_list, log, call_pure, call, ret, raise,
    get, getitem in *.

(** X1. The alias lookup needs no credentials: [on_GET] parses the alias
    and asks the directory handler, and calls neither the authenticator nor
    the room store.  A parse error is raised before the handler is asked; the
    handler's answer is returned with status 200 and its error is raised
    as it is. *)
Theorem alias_get_asks_only_the_handler request room_alias (s : State) :
  let r := ClientDirectoryServer_on_GET hs request room_alias s in
  (forall e,
     RoomAlias_from_string hs room_alias = Raises e ->
     r = (Raises e,
          mkState (world s) (calls s ++ [RoomAliasFromString room_alias]))) /\
  (forall a o w1,
     RoomAlias_from_string hs room_alias = Returns a ->
     handler_get_association hs a (world s) = (o, w1) ->
     r = (match o with
          | Returns res => Returns (200, res)
          | Raises e => Raises e
          end,
          mkState w1
            (calls s ++ [RoomAliasFromString room_alias;
                         HandlerGetAssociation a]))) /\
  exists new, calls r.2 = calls s ++ new /\
              Forall (fun ev => component ev <> Auth /\ component ev <> Store)
                new.
Proof.
  intros r. unfold r. split; [| split].
  - intros e He. unfold_servlets. cbn. rewrite He. reflexivity.
  - intros a o w1 Ha Hg. unfold_servlets. cbn. rewrite Ha. cbn. rewrite Hg.
    rewrite <- app_assoc. destruct o; reflexivity.
  - unfold_servlets. cbn.
    destruct (RoomAlias_from_string hs room_alias) as [a | e]; cbn.
    + destruct (handler_get_association hs a (world s)) as [[res | e] w1]; cbn;
        rewrite <- app_assoc; eexists; (split; [reflexivity |]);
        repeat constructor; discriminate.
    + eexists. split; [reflexivity |]. repeat constructor; discriminate.
Qed.

(** X2. When the alias parses, the body names a room that exists and the
    caller is authenticated, the alias [on_PUT] calls [create_association]
    once, with the authenticated requester, the parsed alias, the body's
    [room_id] and the body's [servers] value, or [None] when the body has
    no [servers] key.  It answers 200 with an empty object when the handler
    returns and raises the handler's error otherwise. *)
Theorem alias_put_creates_the_association request room_alias (s : State)
    a content room_id room w1 requester w2 o w3 :
  RoomAlias_from_string hs room_alias = Returns a ->
  parse_json_object_from_request hs request = Returns content ->
  content !! "room_id" = Some room_id ->
  store_get_room hs room_id (world s) = (Returns (Some room), w1) ->
  auth_get_user_by_req hs request w1 = (Returns requester, w2) ->
  handler_create_association hs requester a room_id
    (default PyNone (content !! "servers")) w2 = (o, w3) ->
  ClientDirectoryServer_on_PUT hs request room_alias s =
    (respond o,
     mkState w3
       (calls s ++
        [RoomAliasFromString room_alias;
         ParseJsonObjectFromRequest request;
         LoggerCall DEBUG "Got content: %s" [PyDict content];
         LoggerCall DEBUG "Got room name: %s" [PyStr (RoomAlias_to_string hs a)];
         LoggerCall DEBUG "Got room_id: %s" [room_id];
         LoggerCall DEBUG "Got servers: %s" [default PyNone (content !! "servers")];
         StoreGetRoom room_id;
         AuthGetUserByReq request;
         HandlerCreateAssociation requester a room_id
           (default PyNone (content !! "servers"))])).
Proof.
  intros Ha Hc Hr Hg Hu Hh.
  rewrite (on_PUT_until_get_room _ _ _ _ _ _ _ _ Ha Hc Hr Hg).
  unfold_servlets. cbn. rewrite Hu. cbn. rewrite Hh.
  rewrite <- !app_assoc. destruct o; reflexivity.
Qed.

(** X3. A caller that the authenticator rejects creates no alias: when the
    room exists and [get_user_by_req] raises, the alias [on_PUT] raises that
    error and makes no call to the directory handler. *)
Theorem alias_put_unauthenticated_creates_nothing request room_alias
    (s : State) a content room_id room w1 e w2 :
  RoomAlias_from_string hs room_alias = Returns a ->
  parse_json_object_from_request hs request = Returns content ->
  content !! "room_id" = Some room_id ->
  store_get_room hs room_id (world s) = (Returns (Some room), w1) ->
  auth_get_user_by_req hs request w1 = (Raises e, w2) ->
  let r := ClientDirectoryServer_on_PUT hs request room_alias s in
  r.1 = Raises e /\ world r.2 = w2 /\
  exists new, calls r.2 = calls s ++ new /\
              last new = Some (AuthGetUserByReq request) /\
              Forall (fun ev => component ev <> Handler) new.
Proof.
  intros Ha Hc Hr Hg Hu r. unfold r.
  rewrite (on_PUT_until_get_room _ _ _ _ _ _ _ _ Ha Hc Hr Hg).
  unfold_servlets. cbn. rewrite Hu. cbn.
  split; [reflexivity | split; [reflexivity |]].
  rewrite <- app_assoc. eexists. split; [reflexivity |].
  split; [reflexivity |]. repeat constructor; discriminate.
Qed.

(** X4. The alias [on_PUT] validates in the order of its statements: an
    alias that does not parse is rejected before the request body is read,
    and a body that does not parse is rejected before the room store is
    asked.  In both cases the server state is unchanged. *)
Theorem alias_put_validates_alias_then_body request room_alias (s : State) :
  let r := ClientDirectoryServer_on_PUT hs request room_alias s in
  (forall e,
     RoomAlias_from_string hs room_alias = Raises e ->
     r = (Raises e,
          mkState (world s) (calls s ++ [RoomAliasFromString room_alias]))) /\
  (forall a e,
     RoomAlias_from_string hs room_alias = Returns a ->
     parse_json_object_from_request hs request = Raises e ->
     r = (Raises e,
          mkState (world s)
            (calls s ++ [RoomAliasFromString room_alias;
                         ParseJsonObjectFromRequest request]))).
Proof.
  intros r. unfold r. split.
  - intros e He. unfold_servlets. cbn. rewrite He. reflexivity.
  - intros a e Ha He. unfold_servlets. cbn. rewrite Ha. cbn. rewrite He.
    cbn. rewrite <- app_assoc. reflexivity.
Qed.

(** X5. With valid appservice credentials the alias [on_DELETE] calls
    [delete_appservice_association] with the service that the lookup
    returned and the parsed alias.  When the handler returns, one line is
    logged and the answer is 200 with an empty object; when the handler
    raises an error that is not a credentials error, that error is raised
    and the user path is not tried. *)
Theorem alias_delete_by_appservice request room_alias (s : State)
    service w1 a o w2 :
  auth_get_appservice_by_req hs request (world s) = (Returns service, w1) ->
  RoomAlias_from_string hs room_alias = Returns a ->
  handler_delete_appservice_association hs service a w1 = (o, w2) ->
  (forall e, o = Raises e -> is_InvalidClientCredentialsError e = false) ->
  ClientDirectoryServer_on_DELETE hs request room_alias s =
    (respond o,
     mkState w2
       (calls s ++
        [AuthGetAppserviceByReq request;
         RoomAliasFromString room_alias;
         HandlerDeleteAppserviceAssociation service a] ++
        match o with
        | Returns _ =>
            [LoggerCall INFO "Application service at %s deleted alias %s"
               [ApplicationService.url service;
                PyStr (RoomAlias_to_string hs a)]]
        | Raises _ => []
        end)).
Proof.
  intros Hl Ha Hd Hne. unfold_servlets. cbn. rewrite Hl. cbn. rewrite Ha.
  cbn. rewrite Hd. destruct o as [[] | e]; cbn.
  - rewrite <- !app_assoc. reflexivity.
  - rewrite (Hne e eq_refl). rewrite <- !app_assoc. reflexivity.
Qed.

(** X6. The [except] clause of the alias [on_DELETE] catches credentials
    errors only: when the appservice lookup raises any other error, that
    error is raised and nothing else is called. *)
Theorem alias_delete_raises_other_lookup_errors request room_alias
    (s : State) e w1 :
  auth_get_appservice_by_req hs request (world s) = (Raises e, w1) ->
  is_InvalidClientCredentialsError e = false ->
  ClientDirectoryServer_on_DELETE hs request room_alias s =
    (Raises e, mkState w1 (calls s ++ [AuthGetAppserviceByReq request])).
Proof.
  intros Hl He. unfold_servlets. cbn. rewrite Hl. cbn. rewrite He.
  reflexivity.
Qed.

(** X7. The [try] statement of the alias [on_DELETE] covers the handler
    call too: when [delete_appservice_association] itself raises
    [InvalidClientCredentialsError], the error is caught and the run
    continues with the statements after the [try], after the appservice
    handler was called.  By then [room_alias] is the parsed alias, so once
    [get_user_by_req] has returned, [RoomAlias.from_string] is applied to
    that object and not to the string of the URL: when it raises, its error
    is raised and [delete_association] is not called; when it returns,
    [delete_association] is called with what it returned. *)
Theorem alias_delete_catches_handler_credentials_error request room_alias
    (s : State) service w1 a e w2 :
  auth_get_appservice_by_req hs request (world s) = (Returns service, w1) ->
  RoomAlias_from_string hs room_alias = Returns a ->
  handler_delete_appservice_association hs service a w1 = (Raises e, w2) ->
  is_InvalidClientCredentialsError e = true ->
  let r := ClientDirectoryServer_on_DELETE hs request room_alias s in
  let tried :=
    calls s ++
    [AuthGetAppserviceByReq request;
     RoomAliasFromString room_alias;
     HandlerDeleteAppserviceAssociation service a] in
  r = in_frame (ClientDirectoryServer_on_DELETE_after_try hs request) (inr a)
        (mkState w2 tried) /\
  (forall requester w3 e',
     auth_get_user_by_req hs request w2 = (Returns requester, w3) ->
     RoomAlias_from_string_of_alias hs a = Raises e' ->
     r = (Raises e',
          mkState w3
            (tried ++ [AuthGetUserByReq request;
                       RoomAliasFromStringOfAlias a]))) /\
  (forall requester w3 a' o w4,
     auth_get_user_by_req hs request w2 = (Returns requester, w3) ->
     RoomAlias_from_string_of_alias hs a = Returns a' ->
     handler_delete_association hs requester a' w3 = (o, w4) ->
     exists logged,
       r = (respond o,
            mkState w4
              (tried ++ [AuthGetUserByReq request;
                         RoomAliasFromStringOfAlias a;
                         HandlerDeleteAssociation requester a'] ++ logged)) /\
       Forall (fun ev => component ev = Logger) logged).
Proof.
  intros Hl Ha Hd He r tried.
  assert (Hrun : r = in_frame (ClientDirectoryServer_on_DELETE_after_try hs
                                 request) (inr a) (mkState w2 tried)).
  { unfold r, tried. unfold_alias_delete. cbn. rewrite Hl. cbn. rewrite Ha.
    cbn. rewrite Hd. cbn. rewrite He. rewrite <- !app_assoc. reflexivity. }
  split; [exact Hrun | split].
  - intros requester w3 e' Hu Hp. rewrite Hrun. unfold tried.
    unfold_alias_delete. cbn. rewrite Hu. cbn. rewrite Hp. cbn.
    rewrite <- !app_assoc. reflexivity.
  - intros requester w3 a' o w4 Hu Hp Hdel. rewrite Hrun. unfold tried.
    unfold_alias_delete. cbn. rewrite Hu. cbn. rewrite Hp. cbn.
    rewrite Hdel. destruct o as [[] | e']; cbn.
    + eexists [_]. rewrite <- !app_assoc. cbn.
      split; [reflexivity | repeat constructor].
    + exists []. rewrite <- !app_assoc. cbn.
      split; [reflexivity | constructor].
Qed.

(** X8. A caller with neither appservice nor user credentials deletes
    nothing: when the appservice lookup raises a credentials error and
    [get_user_by_req] raises too, the alias [on_DELETE] raises the error of
    [get_user_by_req] and makes no call to the directory handler. *)
Theorem alias_delete_unauthenticated_deletes_nothing request room_alias
    (s : State) e w1 e' w2 :
  auth_get_appservice_by_req hs request (world s) = (Raises e, w1) ->
  is_InvalidClientCredentialsError e = true ->
  auth_get_user_by_req hs request w1 = (Raises e', w2) ->
  ClientDirectoryServer_on_DELETE hs request room_alias s =
    (Raises e',
     mkState w2
       (calls s ++ [AuthGetAppserviceByReq request; AuthGetUserByReq request])).
Proof.
  intros Hl He Hu. unfold_servlets. cbn. rewrite Hl. cbn. rewrite He. cbn.
  rewrite Hu. cbn. rewrite <- app_assoc. reflexivity.
Qed.

(** *** Further properties of the room list servlets *)

(** X9. The global list [on_PUT] does not check the [visibility] value:
    whatever JSON value the body gives under that key, of any type, is
    passed to [edit_published_room_list] as it is, for the authenticated
    requester. *)
Theorem list_put_passes_visibility_as_given request room_id (s : State)
    requester w1 content v o w2 :
  auth_get_user_by_req hs request (world s) = (Returns requester, w1) ->
  parse_json_object_from_request hs request = Returns content ->
  content !! "visibility" = Some v ->
  handler_edit_published_room_list hs requester room_id v w1 = (o, w2) ->
  ClientDirectoryListServer_on_PUT hs request room_id s =
    (respond o,
     mkState w2
       (calls s ++
        [AuthGetUserByReq request;
         ParseJsonObjectFromRequest request;
         HandlerEditPublishedRoomList requester room_id v])).
Proof.
  intros Hu Hc Hv He. unfold_servlets. cbn. rewrite Hu. cbn. rewrite Hc.
  cbn. rewrite Hv. cbn. rewrite He. rewrite <- !app_assoc.
  destruct o; reflexivity.
Qed.

(** X10. On the global list endpoint authentication comes first: when
    [get_user_by_req] raises, [on_PUT] and [on_DELETE] both raise that error
    after this one call; the body is not read and the handler is not
    called. *)
Theorem list_edit_authenticates_first request room_id (s : State) e w1 :
  auth_get_user_by_req hs request (world s) = (Raises e, w1) ->
  let rejected :=
    (@Raises (Z * gmap string PyVal) e,
     mkState w1 (calls s ++ [AuthGetUserByReq request])) in
  ClientDirectoryListServer_on_PUT hs request room_id s = rejected /\
  ClientDirectoryListServer_on_DELETE hs request room_id s = rejected.
Proof.
  intros Hu rejected. unfold rejected.
  split; unfold_servlets; cbn; rewrite Hu; reflexivity.
Qed.

(** X11. On the appservice list endpoint [on_PUT] reads the body before it
    authenticates: a body that does not parse is rejected with the parser's
    error, and neither the authenticator nor the handler is called. *)
Theorem appservice_list_put_reads_body_first request network_id room_id
    (s : State) e :
  parse_json_object_from_request hs request = Raises e ->
  ClientAppserviceDirectoryListServer_on_PUT hs request network_id room_id s =
    (Raises e,
     mkState (world s) (calls s ++ [ParseJsonObjectFromRequest request])).
Proof.
  intros Hc. unfold_servlets. cbn. rewrite Hc. reflexivity.
Qed.

(** X12. No [on_DELETE] method reads the request body: in every run of the
    alias, global list and appservice list [on_DELETE], no call is made to
    the body parser. *)
Theorem delete_never_reads_the_body request room_alias network_id room_id
    (s : State) :
  let unread (r : outcome (Z * gmap string PyVal) * State) :=
    exists new, calls r.2 = calls s ++ new /\
                Forall (fun ev => component ev <> Http) new in
  unread (ClientDirectoryServer_on_DELETE hs request room_alias s) /\
  unread (ClientDirectoryListServer_on_DELETE hs request room_id s) /\
  unread (ClientAppserviceDirectoryListServer_on_DELETE hs request network_id
            room_id s).
Proof.
  intros unread. unfold unread.
  split; [| split]; unfold_servlets; cbn;
    repeat (case_match; simplify_eq /=); rewrite <- ?app_assoc;
    (eexists; split; [reflexivity |]); repeat constructor; discriminate.
Qed.

(** X13. The appservice list edit asks for the admin flag of every
    requester, appservice or not, before it decides: when [is_server_admin]
    raises, the edit raises that error and the handler is not called, even
    for a requester that has an appservice.  When [get_user_by_req] raises,
    the admin flag is not asked for. *)
Theorem appservice_list_edit_needs_both_auth_calls request network_id room_id
    visibility (s : State) :
  let r := _edit_appservice_room_visibility hs request network_id room_id
             visibility s in
  (forall e w1,
     auth_get_user_by_req hs request (world s) = (Raises e, w1) ->
     r = (Raises e, mkState w1 (calls s ++ [AuthGetUserByReq request]))) /\
  (forall requester w1 e w2,
     auth_get_user_by_req hs request (world s) = (Returns requester, w1) ->
     auth_is_server_admin hs (user requester) w1 = (Raises e, w2) ->
     r = (Raises e,
          mkState w2
            (calls s ++ [AuthGetUserByReq request;
                         AuthIsServerAdmin (user requester)]))).
Proof.
  intros r. unfold r. split.
  - intros e w1 Hu. unfold_servlets. cbn. rewrite Hu. reflexivity.
  - intros requester w1 e w2 Hu Ha. unfold_servlets. cbn. rewrite Hu. cbn.
    rewrite Ha. cbn. rewrite <- app_assoc. reflexivity.
Qed.

(** X14. A servlet method reports a failure by raising, never through its
    return value: whenever one of the eight methods returns, the status is
    200, and the body is the empty object for every method that edits. *)
Theorem servlets_return_status_200 request room_alias network_id room_id
    (s : State) code body :
  ((ClientDirectoryServer_on_GET hs request room_alias s).1
   = Returns (code, body) -> code = 200) /\
  ((ClientDirectoryListServer_on_GET hs request room_id s).1
   = Returns (code, body) -> code = 200) /\
  ((ClientDirectoryServer_on_PUT hs request room_alias s).1
   = Returns (code, body) -> code = 200 /\ body = ∅) /\
  ((ClientDirectoryServer_on_DELETE hs request room_alias s).1
   = Returns (code, body) -> code = 200 /\ body = ∅) /\
  ((ClientDirectoryListServer_on_PUT hs request room_id s).1
   = Returns (code, body) -> code = 200 /\ body = ∅) /\
  ((ClientDirectoryListServer_on_DELETE hs request room_id s).1
   = Returns (code, body) -> code = 200 /\ body = ∅) /\
  ((ClientAppserviceDirectoryListServer_on_PUT hs request network_id room_id
      s).1 = Returns (code, body) -> code = 200 /\ body = ∅) /\
  ((ClientAppserviceDirectoryListServer_on_DELETE hs request network_id
      room_id s).1 = Returns (code, body) -> code = 200 /\ body = ∅).
Proof.
  repeat apply conj; unfold_servlets; cbn; intros H;
    repeat (case_match; simplify_eq /=); auto.
Qed.

(** *** Handler calls are authorised *)

(** Splits a membership in a list of calls that is written out. *)
Ltac which_call H :=
  repeat (apply elem_of_cons in H as [H | H]; [try discriminate H |]);
  try (apply elem_of_nil in H; destruct H).

(** X22. Whenever the appservice list edit calls
    [edit_published_appservice_room_list], the call is for the network,
    room and visibility it was given, the requester was authenticated, and
    the appservice id is the id of the requester's appservice; for a
    requester without an appservice the id is empty, the admin check
    answered true and the visibility is the string [private].  So a room is
    never listed without an appservice. *)
Theorem appservice_list_handler_call_is_authorised request network_id room_id
    visibility (s : State) new aid net rid vis :
  calls (_edit_appservice_room_visibility hs request network_id room_id
           visibility s).2 = calls s ++ new ->
  HandlerEditPublishedAppserviceRoomList aid net rid vis ∈ new ->
  net = network_id /\ rid = room_id /\ vis = visibility /\
  exists requester w1,
    auth_get_user_by_req hs request (world s) = (Returns requester, w1) /\
    match app_service requester with
    | Some service => aid = ApplicationService.id service
    | None =>
        aid = EmptyString /\ visibility = PyStr "private" /\
        exists w2,
          auth_is_server_admin hs (user requester) w1 = (Returns true, w2)
    end.
Proof.
  unfold_servlets. cbn.
  destruct (auth_get_user_by_req hs request (world s))
    as [[requester | e] w1] eqn:Hu; cbn;
    [| intros Hnew%app_inv_head Hin; subst new; which_call Hin].
  destruct (auth_is_server_admin hs (user requester) w1)
    as [[admin | e] w2] eqn:Ha; cbn;
    [| rewrite <- app_assoc; intros Hnew%app_inv_head Hin; subst new;
       which_call Hin].
  destruct (app_service requester) as [service |] eqn:Hs; cbn.
  - destruct (handler_edit_published_appservice_room_list hs
                (ApplicationService.id service) network_id room_id visibility
                w2) as [[[] | e] w3]; cbn;
      rewrite <- !app_assoc; intros Hnew%app_inv_head Hin; subst new;
      which_call Hin; injection Hin as -> -> -> ->;
      repeat split; exists requester, w1; rewrite Hs; auto.
  - destruct (admin && eq_str visibility "private") eqn:Hb; cbn.
    + apply andb_true_iff in Hb as [-> Hv%eq_str_true].
      destruct (handler_edit_published_appservice_room_list hs EmptyString
                  network_id room_id visibility w2) as [[[] | e] w3]; cbn;
        rewrite <- !app_assoc; intros Hnew%app_inv_head Hin; subst new;
        which_call Hin; injection Hin as -> -> -> ->;
        repeat split; exists requester, w1; rewrite Hs; eauto.
    + rewrite <- app_assoc. intros Hnew%app_inv_head Hin. subst new.
      which_call Hin.
Qed.

(** The alias [on_PUT] when the room lookup itself fails. *)
Lemma on_PUT_when_get_room_raises request room_alias (s : State) a content
    room_id e w1 :
  RoomAlias_from_string hs room_alias = Returns a ->
  parse_json_object_from_request hs request = Returns content ->
  content !! "room_id" = Some room_id ->
  store_get_room hs room_id (world s) = (Raises e, w1) ->
  ClientDirectoryServer_on_PUT hs request room_alias s =
    (Raises e,
     mkState w1
       (calls s ++
        [RoomAliasFromString room_alias;
         ParseJsonObjectFromRequest request;
         LoggerCall DEBUG "Got content: %s" [PyDict content];
         LoggerCall DEBUG "Got room name: %s" [PyStr (RoomAlias_to_string hs a)];
         LoggerCall DEBUG "Got room_id: %s" [room_id];
         LoggerCall DEBUG "Got servers: %s" [get content "servers" PyNone];
         StoreGetRoom room_id])).
Proof.
  intros Ha Hc Hr Hg.
  unfold ClientDirectoryServer_on_PUT.
  erewrite bind_returns
    by (unfold from_string; rewrite call_pure_run, Ha; reflexivity).
  erewrite bind_returns
    by (unfold parse_json; rewrite call_pure_run, Hc; reflexivity).
  rewrite (contains_true _ _ _ Hr). cbn [negb].
  erewrite bind_returns by apply log_run.
  erewrite bind_returns by apply log_run.
  erewrite bind_returns by (apply getitem_run; exact Hr).
  assert (Hs : forall (t : State),
    (if contains content "servers" then getitem content "servers"
     else ret PyNone) t = (Returns (get content "servers" PyNone), t)).
  { intros t. unfold get, contains, getitem.
    destruct (content !! "servers") as [v|] eqn:E; reflexivity. }
  erewrite bind_returns by apply Hs.
  erewrite bind_returns by apply log_run.
  erewrite bind_returns by apply log_run.
  erewrite bind_raises
    by (unfold get_room; apply call_run; cbn; exact Hg).
  cbn. rewrite <- !app_assoc. reflexivity.
Qed.

(** X23. Whenever the alias [on_PUT] calls [create_association], the
    requester in the call was returned by [get_user_by_req], the room in
    the call is the body's [room_id], and the room store has a row for it.
    So no alias is created by an unauthenticated caller or for a room that
    the store does not know. *)
Theorem alias_put_handler_call_is_authorised request room_alias (s : State)
    new requester a room_id servers :
  calls (ClientDirectoryServer_on_PUT hs request room_alias s).2
  = calls s ++ new ->
  HandlerCreateAssociation requester a room_id servers ∈ new ->
  RoomAlias_from_string hs room_alias = Returns a /\
  exists content row w1 w2,
    parse_json_object_from_request hs request = Returns content /\
    content !! "room_id" = Some room_id /\
    servers = get content "servers" PyNone /\
    store_get_room hs room_id (world s) = (Returns (Some row), w1) /\
    auth_get_user_by_req hs request w1 = (Returns requester, w2).
Proof.
  destruct (RoomAlias_from_string hs room_alias) as [a' | e] eqn:Ha;
    [| unfold_servlets; cbn; rewrite Ha; cbn;
       intros Hnew%app_inv_head Hin; subst new; which_call Hin].
  destruct (parse_json_object_from_request hs request) as [content | e]
    eqn:Hc;
    [| unfold_servlets; cbn; rewrite Ha; cbn; rewrite Hc; cbn;
       rewrite <- app_assoc; intros Hnew%app_inv_head Hin; subst new;
       which_call Hin].
  destruct (content !! "room_id") as [rid |] eqn:Hr;
    [| unfold_servlets; cbn; rewrite Ha; cbn; rewrite Hc; cbn;
       rewrite (contains_false _ _ Hr); cbn; rewrite <- app_assoc;
       intros Hnew%app_inv_head Hin; subst new; which_call Hin].
  destruct (store_get_room hs rid (world s)) as [[room | e] w1] eqn:Hg.
  - rewrite (on_PUT_until_get_room _ _ _ _ _ _ _ _ Ha Hc Hr Hg).
    destruct room as [row |]; cbn;
      [| intros Hnew%app_inv_head Hin; subst new; which_call Hin].
    unfold_servlets. cbn.
    destruct (auth_get_user_by_req hs request w1) as [[rq | e] w2] eqn:Hu;
      cbn;
      [| rewrite <- app_assoc; intros Hnew%app_inv_head Hin; subst new;
         which_call Hin].
    destruct (handler_create_association hs rq a' rid
                (default PyNone (content !! "servers")) w2)
      as [[[] | e] w3]; cbn;
      rewrite <- !app_assoc; intros Hnew%app_inv_head Hin; subst new;
      which_call Hin; injection Hin as -> -> -> ->;
      (split; [reflexivity |]); exists content, row, w1, w2; auto.
  - rewrite (on_PUT_when_get_room_raises _ _ _ _ _ _ _ _ Ha Hc Hr Hg). cbn.
    intros Hnew%app_inv_head Hin. subst new. which_call Hin.
Qed.



End Facts.


(** *** The theorems at work on the sample home server *)

Section Witnesses.

Import Sample.

Local Abbreviation room := "!room:example.org".
Local Abbreviation lobby := "#lobby:example.org".
Local Abbreviation denied_msg :=
  "Only appservices can edit the appservice published room list".

Lemma sample_alias_put_empty_body :
  let rq := request "alice_token" (Some ∅) in
  parse_json_object_from_request hs rq = Returns ∅ /\
  ClientDirectoryServer_on_PUT hs rq "#new:example.org" s0
  = (Raises (SynapseError 400 missing_room_id_msg (Some BAD_JSON)),
     mkState w0 [RoomAliasFromString "#new:example.org";
                 ParseJsonObjectFromRequest rq]).
Proof.
  split; [reflexivity |].
  apply (alias_put_without_room_id_is_bad_json hs
           (request "alice_token" (Some ∅)) "#new:example.org" s0
           "#new:example.org" ∅); reflexivity.
Defined.

Lemma sample_alias_put_for_missing_room :
  let rq := request "alice_token" (Some {[ "room_id" := PyStr "!gone:example.org" ]}) in
  store_get_room hs (PyStr "!gone:example.org") w0 = (Returns None, w0) /\
  (ClientDirectoryServer_on_PUT hs rq "#new:example.org" s0).1
  = Raises (SynapseError 400 "Room does not exist" None) /\
  aliases (world (ClientDirectoryServer_on_PUT hs rq "#new:example.org" s0).2)
  = aliases w0.
Proof.
  split; [reflexivity |].
  edestruct (alias_put_unknown_room_creates_nothing hs
               (request "alice_token"
                  (Some {[ "room_id" := PyStr "!gone:example.org" ]}))
               "#new:example.org" s0 "#new:example.org"
               {[ "room_id" := PyStr "!gone:example.org" ]}
               (PyStr "!gone:example.org") w0) as (Ho & Hw & _);
    [reflexivity .. |].
  split; [exact Ho |]. cbv zeta in Hw. rewrite Hw. reflexivity.
Defined.

Lemma sample_alias_put_with_bad_token :
  let rq := request "no_such_token" (Some {[ "room_id" := PyStr "!gone:example.org" ]}) in
  (auth_get_user_by_req hs rq w0).1 = Raises invalid_token /\
  (ClientDirectoryServer_on_PUT hs rq "#new:example.org" s0).1
  = Raises (SynapseError 400 "Room does not exist" None).
Proof.
  split; [reflexivity |].
  edestruct (alias_put_unknown_room_precedes_authentication hs
               (request "no_such_token"
                  (Some {[ "room_id" := PyStr "!gone:example.org" ]}))
               "#new:example.org" s0 "#new:example.org"
               {[ "room_id" := PyStr "!gone:example.org" ]}
               (PyStr "!gone:example.org") w0) as (Hrun & _);
    [reflexivity .. |].
  rewrite Hrun. reflexivity.
Defined.

Lemma sample_alias_delete_both_paths :
  let user_rq := request "alice_token" None in
  let as_rq := request "as_token" None in
  auth_get_appservice_by_req hs user_rq w0 = (Raises invalid_token, w0) /\
  ClientDirectoryServer_on_DELETE hs user_rq lobby s0
  = ClientDirectoryServer_on_DELETE_user_path hs user_rq lobby
      (mkState w0 [AuthGetAppserviceByReq user_rq]) /\
  auth_get_appservice_by_req hs as_rq w0 = (Returns irc_bridge, w0) /\
  ClientDirectoryServer_on_DELETE hs as_rq lobby s0
  = ClientDirectoryServer_on_DELETE_appservice_path hs as_rq lobby s0.
Proof.
  split; [reflexivity |]. split; [| split; [reflexivity |]].
  - apply (proj1 (alias_delete_falls_through_to_user_path hs
                    (request "alice_token" None) lobby s0)
             invalid_token w0); reflexivity.
  - apply (proj2 (alias_delete_falls_through_to_user_path hs
                    (request "as_token" None) lobby s0)
             irc_bridge w0).
    + reflexivity.
    + intros e He. discriminate He.
    + intros a w e w'. cbn. unfold delete_alias.
      destruct (aliases w !! a); intros [= <- <-]; reflexivity.
Defined.

Lemma sample_visibility_of_private_room :
  (exists row, store_get_room hs (PyStr room) w0 = (Returns (Some row), w0) /\
               row !! "is_public" = Some (PyInt 0)) /\
  (ClientDirectoryListServer_on_GET hs (request "alice_token" None) room s0).1
  = Returns (200, {[ "visibility" := PyStr "private" ]}).
Proof.
  split; [eexists; split; reflexivity |].
  edestruct (visibility_query_reads_the_room_row hs
               (request "alice_token" None) room s0) as (_ & Hrow & _);
    [reflexivity |].
  edestruct Hrow as (_ & _ & Hprivate);
    [reflexivity | reflexivity | apply Hprivate; reflexivity].
Defined.


Lemma sample_appservice_put_defaults_to_public :
  let rq := request "as_token" (Some ∅) in
  let r := ClientAppserviceDirectoryListServer_on_PUT hs rq "irc" room s0 in
  parse_json_object_from_request hs rq = Returns ∅ /\
  app_service bridge = Some irc_bridge /\
  r.1 = Returns (200, ∅) /\
  calls r.2
  = [ParseJsonObjectFromRequest rq; AuthGetUserByReq rq;
     AuthIsServerAdmin (user bridge);
     HandlerEditPublishedAppserviceRoomList "irc" "irc" room (PyStr "public")]
  /\
  appservice_rooms (world r.2) = [("irc", "irc", room)].
Proof.
  split; [reflexivity |]. split; [reflexivity |].
  destruct (list_edit_default_and_delete hs (request "as_token" (Some ∅))
              "irc" room s0) as (_ & _ & _ & _ & _ & Hput & _).
  erewrite (Hput ∅ bridge w0 false w0 irc_bridge (Returns tt)); cycle 1.
  { reflexivity. }
  { reflexivity. }
  { reflexivity. }
  { reflexivity. }
  { reflexivity. }
  { reflexivity. }
  repeat split; reflexivity.
Defined.

(** *** The further properties at work *)

Local Abbreviation new_alias := "#new:example.org".
Local Abbreviation put_body := ({[ "room_id" := PyStr room ]} : gmap string PyVal).

Lemma sample_alias_lookup :
  handler_get_association hs lobby w0
  = (Returns {[ "room_id" := PyStr room ]}, w0) /\
  ClientDirectoryServer_on_GET hs (request "no_such_token" None) lobby s0
  = (Returns (200, {[ "room_id" := PyStr room ]}),
     mkState w0 [RoomAliasFromString lobby; HandlerGetAssociation lobby]).
Proof.
  split; [reflexivity |].
  edestruct (alias_get_asks_only_the_handler hs (request "no_such_token" None)
               lobby s0) as (_ & Hanswer & _).
  erewrite Hanswer by reflexivity. reflexivity.
Defined.

Lemma sample_alias_put_by_alice :
  let rq := request "alice_token" (Some put_body) in
  auth_get_user_by_req hs rq w0 = (Returns alice, w0) /\
  (ClientDirectoryServer_on_PUT hs rq new_alias s0).1 = Returns (200, ∅) /\
  aliases (world (ClientDirectoryServer_on_PUT hs rq new_alias s0).2)
    !! new_alias = Some (PyStr room) /\
  last (calls (ClientDirectoryServer_on_PUT hs rq new_alias s0).2)
  = Some (HandlerCreateAssociation alice new_alias (PyStr room) PyNone).
Proof.
  split; [reflexivity |].
  erewrite (alias_put_creates_the_association hs
              (request "alice_token" (Some put_body)) new_alias s0 new_alias
              put_body (PyStr room)) by reflexivity.
  repeat split; reflexivity.
Defined.

Lemma sample_alias_put_without_credentials :
  let rq := request "no_such_token" (Some put_body) in
  auth_get_user_by_req hs rq w0 = (Raises invalid_token, w0) /\
  (ClientDirectoryServer_on_PUT hs rq new_alias s0).1 = Raises invalid_token /\
  world (ClientDirectoryServer_on_PUT hs rq new_alias s0).2 = w0.
Proof.
  split; [reflexivity |].
  edestruct (alias_put_unauthenticated_creates_nothing hs
               (request "no_such_token" (Some put_body)) new_alias s0
               new_alias put_body (PyStr room)) as (Hout & Hworld & _);
    [reflexivity .. |].
  split; [exact Hout | exact Hworld].
Defined.

Lemma sample_alias_put_of_malformed_alias :
  RoomAlias_from_string hs "lobby"
  = Raises (SynapseError 400 "Expected RoomAlias string to start with '#'" None)
  /\
  ClientDirectoryServer_on_PUT hs (request "alice_token" None) "lobby" s0
  = (Raises (SynapseError 400 "Expected RoomAlias string to start with '#'"
               None),
     mkState w0 [RoomAliasFromString "lobby"]).
Proof.
  split; [reflexivity |].
  apply (proj1 (alias_put_validates_alias_then_body hs
                  (request "alice_token" None) "lobby" s0)).
  reflexivity.
Defined.

Lemma sample_alias_delete_by_bridge :
  let rq := request "as_token" None in
  auth_get_appservice_by_req hs rq w0 = (Returns irc_bridge, w0) /\
  (ClientDirectoryServer_on_DELETE hs rq lobby s0).1 = Returns (200, ∅) /\
  aliases (world (ClientDirectoryServer_on_DELETE hs rq lobby s0).2) !! lobby
  = None.
Proof.
  split; [reflexivity |].
  erewrite (alias_delete_by_appservice hs (request "as_token" None) lobby s0
              irc_bridge w0 lobby (Returns tt)); cycle 1.
  { reflexivity. }
  { reflexivity. }
  { reflexivity. }
  { intros e He. discriminate He. }
  split; reflexivity.
Defined.

Lemma sample_alias_delete_when_database_is_down :
  let server := faulty (Some database_down) None None in
  let rq := request "alice_token" None in
  auth_get_appservice_by_req server rq w0 = (Raises database_down, w0) /\
  ClientDirectoryServer_on_DELETE server rq lobby s0
  = (Raises database_down, mkState w0 [AuthGetAppserviceByReq rq]).
Proof.
  split; [reflexivity |].
  apply (alias_delete_raises_other_lookup_errors
           (faulty (Some database_down) None None)
           (request "alice_token" None) lobby s0 database_down w0);
    reflexivity.
Defined.

Lemma sample_alias_delete_after_handler_credentials_error :
  let server := faulty None (Some invalid_token) None in
  let rq := request "as_token" None in
  handler_delete_appservice_association server irc_bridge lobby w0
  = (Raises invalid_token, w0) /\
  RoomAlias_from_string_of_alias server lobby = Raises not_a_string /\
  ClientDirectoryServer_on_DELETE server rq lobby s0
  = (Raises not_a_string,
     mkState w0 [AuthGetAppserviceByReq rq; RoomAliasFromString lobby;
                 HandlerDeleteAppserviceAssociation irc_bridge lobby;
                 AuthGetUserByReq rq; RoomAliasFromStringOfAlias lobby]).
Proof.
  split; [reflexivity |]. split; [reflexivity |].
  edestruct (alias_delete_catches_handler_credentials_error
               (faulty None (Some invalid_token) None)
               (request "as_token" None)
               lobby s0 irc_bridge w0 lobby invalid_token w0)
    as (_ & Hraises & _); [reflexivity .. |].
  apply (Hraises bridge w0 not_a_string); reflexivity.
Defined.

Lemma sample_alias_delete_without_credentials :
  let rq := request "no_such_token" None in
  auth_get_user_by_req hs rq w0 = (Raises invalid_token, w0) /\
  ClientDirectoryServer_on_DELETE hs rq lobby s0
  = (Raises invalid_token,
     mkState w0 [AuthGetAppserviceByReq rq; AuthGetUserByReq rq]).
Proof.
  split; [reflexivity |].
  apply (alias_delete_unauthenticated_deletes_nothing hs
           (request "no_such_token" None) lobby s0 invalid_token w0
           invalid_token w0); reflexivity.
Defined.

Lemma sample_list_put_of_a_number :
  let rq := request "alice_token" (Some {[ "visibility" := PyInt 7 ]}) in
  parse_json_object_from_request hs rq = Returns {[ "visibility" := PyInt 7 ]}
  /\
  last (calls (ClientDirectoryListServer_on_PUT hs rq room s0).2)
  = Some (HandlerEditPublishedRoomList alice room (PyInt 7)).
Proof.
  split; [reflexivity |].
  erewrite (list_put_passes_visibility_as_given hs
              (request "alice_token" (Some {[ "visibility" := PyInt 7 ]}))
              room s0 alice w0 {[ "visibility" := PyInt 7 ]} (PyInt 7))
    by reflexivity.
  reflexivity.
Defined.

Lemma sample_list_edit_without_credentials :
  let rq := request "no_such_token" (Some ∅) in
  auth_get_user_by_req hs rq w0 = (Raises invalid_token, w0) /\
  ClientDirectoryListServer_on_PUT hs rq room s0
  = (Raises invalid_token, mkState w0 [AuthGetUserByReq rq]) /\
  ClientDirectoryListServer_on_DELETE hs rq room s0
  = (Raises invalid_token, mkState w0 [AuthGetUserByReq rq]).
Proof.
  split; [reflexivity |].
  apply (list_edit_authenticates_first hs (request "no_such_token" (Some ∅))
           room s0 invalid_token w0). reflexivity.
Defined.

Lemma sample_appservice_list_put_without_body :
  let rq := request "no_such_token" None in
  parse_json_object_from_request hs rq
  = Raises (SynapseError 400 "Content not JSON." (Some (OtherCode "M_NOT_JSON")))
  /\
  ClientAppserviceDirectoryListServer_on_PUT hs rq "irc" room s0
  = (Raises (SynapseError 400 "Content not JSON."
               (Some (OtherCode "M_NOT_JSON"))),
     mkState w0 [ParseJsonObjectFromRequest rq]).
Proof.
  split; [reflexivity |].
  apply (appservice_list_put_reads_body_first hs
           (request "no_such_token" None) "irc" room s0). reflexivity.
Defined.

Lemma sample_appservice_list_edit_when_admin_check_fails :
  let server := faulty None None (Some database_down) in
  let rq := request "as_token" None in
  auth_get_user_by_req server rq w0 = (Returns bridge, w0) /\
  auth_is_server_admin server (user bridge) w0 = (Raises database_down, w0) /\
  _edit_appservice_room_visibility server rq "irc" room (PyStr "public") s0
  = (Raises database_down,
     mkState w0 [AuthGetUserByReq rq; AuthIsServerAdmin (user bridge)]).
Proof.
  split; [reflexivity |]. split; [reflexivity |].
  apply (proj2 (appservice_list_edit_needs_both_auth_calls
                  (faulty None None (Some database_down))
                  (request "as_token" None) "irc" room (PyStr "public") s0)
           bridge w0 database_down w0); reflexivity.
Defined.

Lemma sample_admin_delisting_is_authorised :
  let rq := request "admin_token" None in
  let edit := HandlerEditPublishedAppserviceRoomList EmptyString "irc" room
                (PyStr "private") in
  let new := [AuthGetUserByReq rq; AuthIsServerAdmin (user admin); edit] in
  calls (_edit_appservice_room_visibility hs rq "irc" room (PyStr "private")
           s0).2 = calls s0 ++ new /\
  exists requester w1,
    auth_get_user_by_req hs rq (world s0) = (Returns requester, w1) /\
    match app_service requester with
    | Some service => EmptyString = ApplicationService.id service
    | None =>
        EmptyString = EmptyString /\ PyStr "private" = PyStr "private" /\
        exists w2,
          auth_is_server_admin hs (user requester) w1 = (Returns true, w2)
    end.
Proof.
  split; [reflexivity |].
  edestruct (appservice_list_handler_call_is_authorised hs
               (request "admin_token" None) "irc" room (PyStr "private") s0
               [AuthGetUserByReq (request "admin_token" None);
                AuthIsServerAdmin (user admin);
                HandlerEditPublishedAppserviceRoomList EmptyString "irc" room
                  (PyStr "private")]
               EmptyString "irc" room (PyStr "private"))
    as (_ & _ & _ & Hauth).
  - reflexivity.
  - do 2 apply list_elem_of_further. apply list_elem_of_here.
  - exact Hauth.
Defined.

Lemma sample_alias_creation_is_authorised :
  let rq := request "alice_token" (Some put_body) in
  let create := HandlerCreateAssociation alice new_alias (PyStr room) PyNone in
  calls (ClientDirectoryServer_on_PUT hs rq new_alias s0).2 !! 8%nat
  = Some create /\
  exists content row w1 w2,
    parse_json_object_from_request hs rq = Returns content /\
    content !! "room_id" = Some (PyStr room) /\
    PyNone = get content "servers" PyNone /\
    store_get_room hs (PyStr room) (world s0) = (Returns (Some row), w1) /\
    auth_get_user_by_req hs rq w1 = (Returns alice, w2).
Proof.
  split; [reflexivity |].
  edestruct (alias_put_handler_call_is_authorised hs
               (request "alice_token" (Some put_body)) new_alias s0
               (calls (ClientDirectoryServer_on_PUT hs
                         (request "alice_token" (Some put_body)) new_alias
                         s0).2)
               alice new_alias (PyStr room) PyNone) as (_ & Hauth).
  - reflexivity.
  - apply (list_elem_of_lookup_2 _ 8%nat). reflexivity.
  - exact Hauth.
Defined.



End Witnesses.

End DirectoryFacts.

(** ** Properties of the account-validity configuration *)

Module AccountValidityFacts.

Import AccountValidity PyFacts.

Section Facts.

Context {Template LoadedModule : Type}.
Variable base : Base Template LoadedModule.

Local Abbreviation State := (ConfigState Template LoadedModule).
Local Abbreviation Self := (AccountValidityConfig Template LoadedModule).

(** *** Attributes that a computation leaves alone *)

Lemma keeps_ret {A B} (f : Self -> B) (a : A) : keeps f (ret a).
Proof. intros s. reflexivity. Qed.

Lemma keeps_raise {A B} (f : Self -> B) e : keeps f (@raise State A e).
Proof. intros s. reflexivity. Qed.

Lemma keeps_call {A B} (f : Self -> B) ev (r : outcome A) : keeps f (call ev r).
Proof. intros s. reflexivity. Qed.

Lemma keeps_getattr {A B} (f : Self -> B) (g : Self -> A) : keeps f (getattr g).
Proof. intros s. reflexivity. Qed.

Lemma keeps_getattr_opt {A B} (f : Self -> B) name (g : Self -> option A) :
  keeps f (getattr_opt name g).
Proof. intros s. unfold getattr_opt. destruct (g (self s)); reflexivity. Qed.

Lemma keeps_getitem {B} (f : Self -> B) d k : keeps f (getitem d k).
Proof. intros s. unfold getitem. destruct (d !! k); reflexivity. Qed.

Lemma keeps_startup_job_max_delta {B} (f : Self -> B) p :
  keeps f (startup_job_max_delta p).
Proof.
  intros s. unfold startup_job_max_delta.
  destruct (float_of_int p); reflexivity.
Qed.

Lemma keeps_setattr {B} (f : Self -> B) g :
  (forall c, f (g c) = f c) -> keeps f (setattr g).
Proof. intros H s. apply H. Qed.

Lemma keeps_bind {A A' B} (f : Self -> B) (c : M State A) (k : A -> M State A') :
  keeps f c -> (forall a, keeps f (k a)) -> keeps f (bind c k).
Proof.
  intros Hc Hk s. unfold bind. specialize (Hc s).
  destruct (c s) as [[a | e] s']; cbn in *; [| exact Hc].
  rewrite Hk. exact Hc.
Qed.

Lemma keeps_if {A B} (f : Self -> B) (b : bool) (c1 c2 : M State A) :
  keeps f c1 -> keeps f c2 -> keeps f (if b then c1 else c2).
Proof. destruct b; auto. Qed.

Create HintDb keeps discriminated.
Hint Resolve keeps_ret keeps_raise keeps_call keeps_getattr
  keeps_getattr_opt keeps_getitem keeps_startup_job_max_delta
  keeps_bind keeps_if : keeps.
Hint Extern 1 (keeps _ (setattr _)) =>
  (apply keeps_setattr; intros; reflexivity) : keeps.

Lemma read_legacy_config_keeps_modules d :
  keeps account_validity_modules (read_legacy_config base d).
Proof. unfold read_legacy_config. auto 20 with keeps. Qed.

Lemma read_legacy_config_keeps_public_baseurl d :
  keeps public_baseurl (read_legacy_config base d).
Proof. unfold read_legacy_config. auto 20 with keeps. Qed.

Lemma load_modules_keeps {B} (f : Self -> B) l :
  (forall ms c, f (set_modules ms c) = f c) ->
  forall i, keeps f (load_modules base i l).
Proof.
  intros Hf. induction l as [| v l IH]; intros i; cbn [load_modules].
  - auto with keeps.
  - destruct v; auto with keeps.
    apply keeps_bind; [auto with keeps |]. intros loaded.
    apply keeps_bind; [auto with keeps |]. intros modules.
    apply keeps_bind; [| intros _; apply IH].
    apply keeps_setattr. intros c. apply Hf.
Qed.


Lemma read_legacy_config_keeps_period_when_disabled d (s : State) :
  truthy (get d "enabled" (PyBool false)) = false ->
  let r := read_legacy_config base d s in
  account_validity_period (self r.2) = account_validity_period (self s) /\
  calls r.2 = calls s ++ [LoggerWarning LEGACY_ACCOUNT_VALIDITY_IN_USE] /\
  r.1 = (if contains d "renew_at" && negb (truthy (public_baseurl (self s)))
         then Raises (ConfigError
                        "Can't send renewal emails without 'public_baseurl'"
                        None)
         else Returns tt).
Proof.
  intros He. unfold read_legacy_config, bind, call, setattr, getattr, ret,
    raise. cbn. rewrite He. cbn.
  destruct (contains d "renew_at"); cbn;
    [destruct (truthy (public_baseurl (self s))) |]; cbn; auto.
Qed.

(** *** The module list *)

(** The loop loads the elements in order and stops at the first one that
    is not a mapping or that the loader rejects. *)
Lemma load_modules_spec l :
  forall i (s : State),
    let r := load_modules base i l s in
    exists ms,
      account_validity_modules (self r.2)
      = account_validity_modules (self s) ++ ms /\
      (forall j m, ms !! j = Some m ->
         exists d, l !! j = Some (PyDict d) /\
                   load_module base d (config_path (i + j)) = Returns m) /\
      match r.1 with
      | Returns _ => length ms = length l
      | Raises e =>
          exists v, l !! length ms = Some v /\
            match v with
            | PyDict d =>
                load_module base d (config_path (i + length ms)) = Raises e
            | _ => e = ConfigError "expected a mapping"
                         (Some (config_path (i + length ms)))
            end
      end.
Proof.
  induction l as [| v l IH]; intros i s.
  - exists []. cbn. rewrite app_nil_r. split; [reflexivity |].
    split; [intros j m H; discriminate H | reflexivity].
  - assert (Hbad : forall e, e = ConfigError "expected a mapping"
                                (Some (config_path (i + 0)))
                   -> e = ConfigError "expected a mapping"
                            (Some (config_path i)))
      by (intros e ->; rewrite Nat.add_0_r; reflexivity).
    destruct v as [| b | z | f | str | vs | d];
      try (exists []; cbn; rewrite app_nil_r, Nat.add_0_r;
           split; [reflexivity |];
           split; [intros j m H; discriminate H |];
           eexists; split; reflexivity).
    cbn [load_modules]. unfold bind at 1. unfold call at 1.
    destruct (load_module base d (config_path i)) as [m | e] eqn:Hload.
    + cbn -[load_modules].
      match goal with
      | |- context [load_modules base (S i) l ?s1] =>
          destruct (IH (S i) s1) as (ms & Hms & Hpre & Hout)
      end.
      exists (m :: ms). cbn -[load_modules] in *.
      split; [rewrite Hms, <- app_assoc; reflexivity |].
      split.
      * intros [| j] m' Hj; cbn in Hj.
        -- injection Hj as <-. exists d. rewrite Nat.add_0_r. auto.
        -- destruct (Hpre j m' Hj) as (d' & Hl & Hd').
           exists d'. rewrite Nat.add_succ_r. auto.
      * destruct (load_modules base (S i) l _).1 as [[] | e].
        -- cbn. f_equal. exact Hout.
        -- destruct Hout as (v & Hv & Hcase). exists v.
           rewrite Nat.add_succ_r. auto.
    + exists []. cbn. rewrite app_nil_r, Nat.add_0_r.
      split; [reflexivity |].
      split; [intros j m H; discriminate H |].
      exists (PyDict d). auto.
Qed.

Lemma read_config_start config (s : State) t1 t2 t3 :
  read_templates base template_names = Returns [t1; t2; t3] ->
  read_config base config s =
    match get config "account_validity" PyNone with
    | PyNone => ret tt
    | PyDict d => read_legacy_config base d
    | PyList l => load_modules base 0 l
    | _ => raise (ConfigError "account_validity syntax is incorrect" None)
    end (initialised t1 t2 t3 s).
Proof.
  intros Ht. unfold read_config, bind, setattr, call at 1. cbn.
  rewrite Ht. reflexivity.
Qed.

(** C3. [read_config] reads the [account_validity] value by its shape,
    once the templates are read.  Absent (no key, or a null value): the
    method returns, the module list is empty and the legacy feature is
    disabled.  A mapping: the run is [read_legacy_config] on that mapping
    and the module list stays empty.  A sequence: the legacy feature stays
    disabled, and the module list holds the loader's results for the
    elements in order, up to the whole sequence when the method returns and
    up to the first element that is not a mapping (error
    [expected a mapping] with that element's path) or that the loader
    rejects when it raises.  Any other value: [ConfigError]
    [account_validity syntax is incorrect]. *)
Theorem account_validity_shape_selects_reading config (s : State) t1 t2 t3 :
  read_templates base template_names = Returns [t1; t2; t3] ->
  let r := read_config base config s in
  let value := get config "account_validity" PyNone in
  (value = PyNone ->
   r = (Returns tt, initialised t1 t2 t3 s) /\
   account_validity_modules (self r.2) = [] /\
   account_validity_enabled (self r.2) = PyBool false /\
   account_validity_renew_by_email_enabled (self r.2) = false) /\
  (forall d, value = PyDict d ->
     r = read_legacy_config base d (initialised t1 t2 t3 s) /\
     account_validity_modules (self r.2) = []) /\
  (forall l, value = PyList l ->
     account_validity_enabled (self r.2) = PyBool false /\
     account_validity_renew_by_email_enabled (self r.2) = false /\
     exists ms,
       account_validity_modules (self r.2) = ms /\
       (forall j m, ms !! j = Some m ->
          exists d, l !! j = Some (PyDict d) /\
                    load_module base d (config_path j) = Returns m) /\
       match r.1 with
       | Returns _ => length ms = length l
       | Raises e =>
           exists v, l !! length ms = Some v /\
             match v with
             | PyDict d =>
                 load_module base d (config_path (length ms)) = Raises e
             | _ => e = ConfigError "expected a mapping"
                          (Some (config_path (length ms)))
             end
       end) /\
  (value <> PyNone -> (forall d, value <> PyDict d) ->
   (forall l, value <> PyList l) ->
   r = (Raises (ConfigError "account_validity syntax is incorrect" None),
        initialised t1 t2 t3 s)).
Proof.
  intros Ht r value. unfold r. rewrite (read_config_start _ _ _ _ _ Ht).
  fold value. split; [| split; [| split]].
  - intros ->. repeat split.
  - intros d ->. split; [reflexivity |].
    rewrite read_legacy_config_keeps_modules. reflexivity.
  - intros l ->. split; [| split].
    + rewrite load_modules_keeps by reflexivity. reflexivity.
    + rewrite load_modules_keeps by reflexivity. reflexivity.
    + destruct (load_modules_spec l 0 (initialised t1 t2 t3 s))
        as (ms & Hms & Hpre & Hout).
      exists ms. split; [exact Hms |]. split; [exact Hpre | exact Hout].
  - intros Hnone Hdict Hlist.
    destruct value; try reflexivity; congruence.
Qed.

(** *** The legacy configuration *)

(** C7. In [read_legacy_config], when [enabled] is set to a true value
    and there is no [period] key, the method raises [ConfigError]
    ['period' is required when using account validity], right after the
    deprecation warning.  When [enabled] is absent or false, that error is
    not raised, no duration is parsed and the period attribute is left as
    it was. *)
Theorem period_is_required_when_enabled d (s : State) :
  let r := read_legacy_config base d s in
  let no_period :=
    Raises (ConfigError "'period' is required when using account validity"
              None) in
  let warned := calls s ++ [LoggerWarning LEGACY_ACCOUNT_VALIDITY_IN_USE] in
  (forall v, d !! "enabled" = Some v -> truthy v = true ->
             d !! "period" = None ->
             r.1 = no_period /\ calls r.2 = warned) /\
  (d !! "enabled" = None \/
   (exists v, d !! "enabled" = Some v /\ truthy v = false) ->
   r.1 <> no_period /\ calls r.2 = warned /\
   account_validity_period (self r.2) = account_validity_period (self s)).
Proof.
  intros r no_period warned. split.
  - intros v Hv Ht Hp. unfold r, read_legacy_config, bind, call, setattr,
      getattr, ret, raise, get. cbn. rewrite Hv. cbn. rewrite Ht.
    rewrite (contains_false _ _ Hp). cbn. split; reflexivity.
  - intros Hdis.
    assert (He : truthy (get d "enabled" (PyBool false)) = false).
    { unfold get. destruct Hdis as [-> | (v & -> & Hv)]; [reflexivity | exact Hv]. }
    destruct (read_legacy_config_keeps_period_when_disabled d s He)
      as (Hperiod & Hcalls & Hout).
    fold r in Hperiod, Hcalls, Hout.
    split; [| split; [exact Hcalls | exact Hperiod]].
    rewrite Hout. unfold no_period.
    destruct (contains d "renew_at" && negb (truthy (public_baseurl (self s))));
      discriminate.
Qed.


(** *** Calls that a computation makes *)

Lemma emits_ret {A} P (a : A) : emits P (@ret State A a).
Proof. intros s. exists []. cbn. rewrite app_nil_r. auto. Qed.

Lemma emits_raise {A} P e : emits P (@raise State A e).
Proof. intros s. exists []. cbn. rewrite app_nil_r. auto. Qed.

Lemma emits_setattr P g : emits P (@setattr Template LoadedModule g).
Proof. intros s. exists []. cbn. rewrite app_nil_r. auto. Qed.

Lemma emits_getattr {A} P (g : Self -> A) : emits P (getattr g).
Proof. intros s. exists []. cbn. rewrite app_nil_r. auto. Qed.

Lemma emits_getattr_opt {A} P name (g : Self -> option A) :
  emits P (getattr_opt name g).
Proof.
  intros s. exists []. unfold getattr_opt.
  destruct (g (self s)); cbn; rewrite app_nil_r; auto.
Qed.

Lemma emits_startup_job_max_delta P p :
  emits P (@startup_job_max_delta Template LoadedModule p).
Proof.
  intros s. exists []. unfold startup_job_max_delta.
  destruct (float_of_int p); cbn; rewrite app_nil_r; auto.
Qed.

Lemma emits_call {A} (P : Event -> Prop) ev (r : outcome A) :
  P ev -> emits P (@call Template LoadedModule A ev r).
Proof. intros H s. exists [ev]. cbn. auto. Qed.

Lemma emits_bind {A B} P (c : M State A) (k : A -> M State B) :
  emits P c -> (forall a, emits P (k a)) -> emits P (bind c k).
Proof.
  intros Hc Hk s. unfold bind. destruct (Hc s) as (new & Hnew & HP).
  destruct (c s) as [[a | e] s1]; cbn in *.
  - destruct (Hk a s1) as (new' & Hnew' & HP').
    exists (new ++ new'). rewrite Hnew', Hnew, app_assoc.
    split; [reflexivity | apply Forall_app; auto].
  - exists new. auto.
Qed.

Lemma emits_getitem_bind {B} P d key (k : PyVal -> M State B) :
  (forall v, d !! key = Some v -> emits P (k v)) ->
  emits P (bind (getitem d key) k).
Proof.
  intros Hk s. unfold bind, getitem.
  destruct (d !! key) as [v |] eqn:Hv; cbn.
  - apply (Hk v eq_refl).
  - exists []. rewrite app_nil_r. auto.
Qed.

Lemma emits_if {A} P (b : bool) (c1 c2 : M State A) :
  emits P c1 -> emits P c2 -> emits P (if b then c1 else c2).
Proof. destruct b; auto. Qed.

(** *** Further properties of the legacy configuration *)

(** X15. [read_legacy_config] sets the two flags from the mapping first and
    keeps them whatever happens next: after the method, whether it returned
    or raised, [account_validity_enabled] is the mapping's [enabled] value,
    [False] when the key is absent, and
    [account_validity_renew_by_email_enabled] tells whether the mapping has
    the [renew_at] key.  The public base URL is left as it was. *)
Theorem legacy_flags_follow_the_mapping d (s : State) :
  let r := read_legacy_config base d s in
  account_validity_enabled (self r.2) = get d "enabled" (PyBool false) /\
  account_validity_renew_by_email_enabled (self r.2) = contains d "renew_at" /\
  public_baseurl (self r.2) = public_baseurl (self s).
Proof.
  intros r. unfold r.
  split; [| split; [| apply read_legacy_config_keeps_public_baseurl]].
  - unfold read_legacy_config.
    erewrite bind_returns by reflexivity.
    erewrite bind_returns by reflexivity.
    erewrite bind_returns by reflexivity.
    match goal with
    | |- context [bind ?c ?k ?s1] =>
        assert (K : keeps account_validity_enabled (bind c k))
          by auto 20 with keeps;
        rewrite (K s1)
    end.
    reflexivity.
  - unfold read_legacy_config.
    erewrite bind_returns by reflexivity.
    erewrite bind_returns by reflexivity.
    erewrite bind_returns by reflexivity.
    match goal with
    | |- context [bind ?c ?k ?s1] =>
        assert (K : keeps account_validity_renew_by_email_enabled (bind c k))
          by auto 20 with keeps;
        rewrite (K s1)
    end.
    reflexivity.
Qed.

(** X16. Every run of [read_legacy_config] logs the deprecation warning as
    its first call, whether it returns or raises, and logs nothing else: the
    calls that follow are calls of [parse_duration] on the mapping's
    [period] or [renew_at] value.  The module loader and the template reader
    are not called. *)
Theorem legacy_warns_first_then_parses_durations d (s : State) :
  let r := read_legacy_config base d s in
  exists rest,
    calls r.2 = calls s ++ LoggerWarning LEGACY_ACCOUNT_VALIDITY_IN_USE :: rest
    /\ Forall (parses_duration_of d) rest.
Proof.
  intros r. unfold r, read_legacy_config.
  erewrite bind_returns by reflexivity.
  match goal with
  | |- context [bind ?c ?k ?s1] =>
      assert (E : emits (parses_duration_of d) (bind c k))
  end.
  { assert (Hparse : forall key v,
      key = "period" \/ key = "renew_at" -> d !! key = Some v ->
      emits (parses_duration_of d)
        (@call Template LoadedModule Z (ParseDuration v)
           (parse_duration base v))).
    { intros key v Hk Hv. apply emits_call. exists key, v. auto. }
    repeat first
      [ apply emits_ret | apply emits_raise | apply emits_setattr
      | apply emits_getattr | apply emits_getattr_opt
      | apply emits_startup_job_max_delta
      | apply emits_if
      | apply emits_getitem_bind; intros ? ?
      | eapply Hparse; [| eassumption]; auto
      | apply emits_bind; [| intros ?] ]. }
  match goal with
  | |- context [bind ?c ?k ?s1] => destruct (E s1) as (rest & Hrest & HP)
  end.
  exists rest. rewrite Hrest. cbn. rewrite <- app_assoc.
  split; [reflexivity | exact HP].
Qed.

(** X17. An enabled legacy section without [renew_at] loads without a
    public base URL: when [enabled] is true, [period] parses to [p]
    milliseconds and there is no [renew_at] key, [read_legacy_config]
    returns.  It stores the period, the subject of the renewal email (the
    mapping's [renew_email_subject], or [Renew your %(app)s account] when
    the key is absent) and the startup delta [p * 10.0 / 100.0], leaves
    [account_validity_renew_at] as it was, and parses one duration. *)
Theorem enabled_legacy_section_loads d (s : State) v vp p :
  d !! "enabled" = Some v -> truthy v = true ->
  d !! "period" = Some vp -> parse_duration base vp = Returns p ->
  d !! "renew_at" = None ->
  (forall sign, float_of_int p <> S754_infinity sign) ->
  let r := read_legacy_config base d s in
  r.1 = Returns tt /\
  account_validity_period (self r.2) = Some p /\
  account_validity_renew_email_subject (self r.2)
  = Some (get d "renew_email_subject" (PyStr "Renew your %(app)s account")) /\
  account_validity_startup_job_max_delta (self r.2)
  = Some (float_div (float_mul (float_of_int p) (float_of_int 10))
            (float_of_int 100)) /\
  account_validity_renew_at (self r.2) = account_validity_renew_at (self s) /\
  calls r.2
  = calls s ++ [LoggerWarning LEGACY_ACCOUNT_VALIDITY_IN_USE; ParseDuration vp].
Proof.
  intros He Ht Hvp Hp Hr Hfin r. unfold r, read_legacy_config.
  unfold bind, call, setattr, getattr, getattr_opt, getitem, ret, raise, get,
    startup_job_max_delta.
  cbn. rewrite He. cbn. rewrite Ht.
  rewrite (contains_true _ _ _ Hvp), (contains_false _ _ Hr). cbn.
  rewrite Hvp. cbn. rewrite Hp. cbn.
  unfold contains.
  destruct (d !! "renew_email_subject") as [subject |]; cbn;
    (destruct (float_of_int p) eqn:Hf;
     [| exfalso; eapply Hfin; reflexivity | |]); cbn;
    rewrite <- ?app_assoc; repeat split; reflexivity.
Qed.

(** X18. In an enabled legacy section the error of [parse_duration] on the
    [period] value is raised as it is, not turned into a [ConfigError]; the
    period attribute is not assigned, [renew_at] is not parsed and the
    public base URL is not looked at. *)
Theorem period_parse_error_is_raised_unchanged d (s : State) v vp e :
  d !! "enabled" = Some v -> truthy v = true ->
  d !! "period" = Some vp -> parse_duration base vp = Raises e ->
  let r := read_legacy_config base d s in
  r.1 = Raises e /\
  account_validity_period (self r.2) = account_validity_period (self s) /\
  calls r.2
  = calls s ++ [LoggerWarning LEGACY_ACCOUNT_VALIDITY_IN_USE; ParseDuration vp].
Proof.
  intros He Ht Hvp Hp r. unfold r, read_legacy_config.
  unfold bind, call, setattr, getattr, getitem, ret, raise, get.
  cbn. rewrite He. cbn. rewrite Ht.
  rewrite (contains_true _ _ _ Hvp). cbn. rewrite Hvp. cbn. rewrite Hp. cbn.
  rewrite <- ?app_assoc. repeat split; reflexivity.
Qed.

(** *** Further properties of the module list *)

Lemma load_modules_calls l :
  forall i (s : State),
    let r := load_modules base i l s in
    exists ds,
      (PyDict <$> ds) `prefix_of` l /\
      calls r.2
      = calls s ++ imap (fun j d => LoadModule d (config_path (i + j))) ds /\
      match r.1 with
      | Returns _ => PyDict <$> ds = l /\ loads base i ds
      | Raises e =>
          (exists ds0 d,
             ds = ds0 ++ [d] /\ loads base i ds0 /\
             load_module base d (config_path (i + length ds0)) = Raises e) \/
          (loads base i ds /\
           exists v, l !! length ds = Some v /\ (forall d, v <> PyDict d) /\
                     e = ConfigError "expected a mapping"
                           (Some (config_path (i + length ds))))
      end.
Proof.
  induction l as [| v l IH]; intros i s.
  - exists []. cbn. rewrite app_nil_r.
    split; [apply prefix_nil |]. split; [reflexivity |].
    split; [reflexivity | intros j d H; discriminate H].
  - destruct v as [| b | z | f | str | vs | d];
      try (exists []; cbn; rewrite app_nil_r, Nat.add_0_r;
           split; [apply prefix_nil |]; split; [reflexivity |];
           right; split; [intros j d H; discriminate H |];
           eexists; split; [reflexivity |];
           split; [intros d; discriminate | reflexivity]).
    cbn [load_modules]. unfold bind at 1. unfold call at 1.
    destruct (load_module base d (config_path i)) as [m | e] eqn:Hload.
    + cbn -[load_modules].
      match goal with
      | |- context [load_modules base (S i) l ?s1] =>
          destruct (IH (S i) s1) as (ds & Hpre & Hcalls & Hout)
      end.
      assert (Hcons : forall ds', loads base (S i) ds' ->
                                  loads base i (d :: ds')).
      { intros ds' H [| j] d' Hj; cbn in Hj.
        - injection Hj as <-. rewrite Nat.add_0_r, Hload. reflexivity.
        - rewrite Nat.add_succ_r. apply (H j d' Hj). }
      exists (d :: ds). cbn -[load_modules] in *.
      split; [apply prefix_cons, Hpre |].
      split.
      * rewrite Hcalls, <- app_assoc. f_equal. cbn. rewrite Nat.add_0_r.
        f_equal. apply imap_ext. intros j d' _. cbn.
        rewrite Nat.add_succ_r. reflexivity.
      * destruct (load_modules base (S i) l _).1 as [[] | e].
        -- destruct Hout as [Hall Hloads].
           split; [f_equal; exact Hall | apply Hcons, Hloads].
        -- destruct Hout as [(ds0 & d' & -> & Hloads & Hfail)
                            | (Hloads & v & Hv & Hnot & ->)].
           ++ left. exists (d :: ds0), d'.
              split; [reflexivity |]. split; [apply Hcons, Hloads |].
              cbn. rewrite Nat.add_succ_r. exact Hfail.
           ++ right. split; [apply Hcons, Hloads |].
              exists v. split; [exact Hv |]. split; [exact Hnot |].
              rewrite Nat.add_succ_r. reflexivity.
    + exists [d]. cbn. rewrite Nat.add_0_r.
      split; [apply prefix_cons, prefix_nil |].
      split; [reflexivity |].
      left. exists [], d. cbn. rewrite Nat.add_0_r.
      split; [reflexivity |]. split; [intros j d' H; discriminate H |].
      exact Hload.
Qed.

(** X19. With a list under [account_validity], [read_config] calls the
    module loader once per element, in the order of the list, with the path
    [("account_validity", "<item i>")] of the element's index.  When it
    returns, every element was a mapping and was loaded.  When it raises,
    every call but the last returned, and either the last call raised that
    error, or every call returned and the next element of the list is not a
    mapping and the error is [expected a mapping] with that element's path.
    Besides the template reader it calls nothing else: no deprecation
    warning is logged and no duration is parsed. *)
Theorem module_list_calls_the_loader_in_order config (s : State) t1 t2 t3 l :
  read_templates base template_names = Returns [t1; t2; t3] ->
  config !! "account_validity" = Some (PyList l) ->
  let r := read_config base config s in
  exists ds,
    (PyDict <$> ds) `prefix_of` l /\
    calls r.2
    = calls s ++ ReadTemplates template_names
                 :: imap (fun j d => LoadModule d (config_path j)) ds /\
    match r.1 with
    | Returns _ => PyDict <$> ds = l /\ loads base 0 ds
    | Raises e =>
        (exists ds0 d,
           ds = ds0 ++ [d] /\ loads base 0 ds0 /\
           load_module base d (config_path (length ds0)) = Raises e) \/
        (loads base 0 ds /\
         exists v, l !! length ds = Some v /\ (forall d, v <> PyDict d) /\
                   e = ConfigError "expected a mapping"
                         (Some (config_path (length ds))))
    end.
Proof.
  intros Ht Hl r. unfold r. rewrite (read_config_start _ _ _ _ _ Ht).
  unfold get. rewrite Hl. cbn -[load_modules].
  destruct (load_modules_calls l 0 (initialised t1 t2 t3 s))
    as (ds & Hpre & Hcalls & Hout).
  exists ds. split; [exact Hpre |]. split; [| exact Hout].
  rewrite Hcalls. cbn. rewrite <- app_assoc. reflexivity.
Qed.

(** X20. [read_config] reads the templates before it looks at the
    [account_validity] value: when [read_templates] raises, [read_config]
    raises that error whatever the value is.  The two legacy flags are
    already reset; the module list and the templates are not assigned. *)
Theorem template_error_comes_first config (s : State) e :
  read_templates base template_names = Raises e ->
  read_config base config s =
    (Raises e,
     AccountValidity.mkState
       (set_renew_by_email_enabled false (set_enabled (PyBool false) (self s)))
       (calls s ++ [ReadTemplates template_names])).
Proof.
  intros Ht. unfold read_config, bind, setattr, call at 1. cbn.
  rewrite Ht. reflexivity.
Qed.

Lemma string_length_app (x z : string) :
  String.length (x +:+ z) = (String.length x + String.length z)%nat.
Proof. induction x as [| c x IH]; simpl; [reflexivity | f_equal; exact IH]. Qed.

Lemma string_app_inv_tail (x y z : string) : x +:+ z = y +:+ z -> x = y.
Proof.
  intros H.
  apply (f_equal String.length) in H as Hlen.
  rewrite !string_length_app in Hlen.
  revert y H Hlen. induction x as [| c x IH]; intros [| c' y] H Hlen;
    cbn in *; try lia; [reflexivity |].
  injection H as -> H. f_equal. apply IH; [exact H | lia].
Qed.

(** X21. The configuration paths of two different list elements differ, so
    the path in an [expected a mapping] error names one element. *)
Theorem config_path_of_distinct_items (i j : nat) :
  i <> j -> config_path i <> config_path j.
Proof.
  intros Hij H. apply Hij. unfold config_path in H.
  injection H as H. change (pretty i +:+ ">" = pretty j +:+ ">") in H.
  apply string_app_inv_tail in H.
  apply (inj pretty) in H. exact H.
Qed.


End Facts.

(** *** The theorems at work on the sample configuration base *)

Section Witnesses.

Import Sample.

Local Abbreviation no_baseurl :=
  (ConfigError "Can't send renewal emails without 'public_baseurl'" None).
Local Abbreviation no_period :=
  (ConfigError "'period' is required when using account validity" None).

Lemma sample_scalar_value_is_rejected :
  read_templates base template_names = Returns template_names /\
  (read_config base {[ "account_validity" := PyStr "yes" ]} (fresh PyNone)).1
  = Raises (ConfigError "account_validity syntax is incorrect" None).
Proof.
  split; [reflexivity |].
  edestruct (account_validity_shape_selects_reading base
               {[ "account_validity" := PyStr "yes" ]} (fresh PyNone))
    as (_ & _ & _ & Hother); [reflexivity |].
  cbv zeta in Hother. rewrite Hother; [reflexivity | | |];
    vm_compute; intros; discriminate.
Defined.

Lemma sample_enabled_without_period :
  let d : gmap string PyVal := {[ "enabled" := PyBool true ]} in
  d !! "enabled" = Some (PyBool true) /\ d !! "period" = None /\
  (read_legacy_config base d (fresh PyNone)).1 = Raises no_period.
Proof.
  split; [reflexivity |]. split; [reflexivity |].
  apply (proj1 (period_is_required_when_enabled base
                  {[ "enabled" := PyBool true ]} (fresh PyNone))
           (PyBool true)); reflexivity.
Defined.



(** A list of two descriptors is loaded in order; a third element that is
    not a mapping stops the loading with its own path. *)
Example sample_modules_load_in_order :
  let r := read_config base
             {[ "account_validity" :=
                  PyList [PyDict {[ "module" := PyStr "a.B" ]};
                          PyDict {[ "module" := PyStr "c.D" ]}] ]}
             (fresh PyNone) in
  r.1 = Returns tt /\ account_validity_modules (self r.2) = ["a.B"; "c.D"].
Proof. vm_compute. split; reflexivity. Qed.

Example sample_third_element_is_not_a_mapping :
  let r := read_config base
             {[ "account_validity" :=
                  PyList [PyDict {[ "module" := PyStr "a.B" ]};
                          PyDict {[ "module" := PyStr "c.D" ]};
                          PyInt 3] ]}
             (fresh PyNone) in
  r.1 = Raises (ConfigError "expected a mapping"
                  (Some ["account_validity"; "<item 2>"])) /\
  account_validity_modules (self r.2) = ["a.B"; "c.D"].
Proof. vm_compute. split; reflexivity. Qed.

(** *** The further properties at work *)

Local Abbreviation one_week := 604800000.

Lemma sample_enabled_section_with_period :
  let d : gmap string PyVal :=
    {[ "enabled" := PyBool true; "period" := PyInt one_week ]} in
  let r := read_legacy_config base d (fresh PyNone) in
  parse_duration base (PyInt one_week) = Returns one_week /\
  r.1 = Returns tt /\
  account_validity_period (self r.2) = Some one_week /\
  account_validity_renew_email_subject (self r.2)
  = Some (PyStr "Renew your %(app)s account") /\
  account_validity_startup_job_max_delta (self r.2)
  = Some (S754_finite false 8117488189440000 (-27)).
Proof.
  split; [reflexivity |].
  edestruct (enabled_legacy_section_loads base
               {[ "enabled" := PyBool true; "period" := PyInt one_week ]}
               (fresh PyNone) (PyBool true) (PyInt one_week) one_week)
    as (Hout & Hperiod & Hsubject & Hdelta & _);
    [reflexivity .. | intros sign; vm_compute; discriminate |].
  split; [exact Hout |]. split; [exact Hperiod |].
  split; [rewrite Hsubject; reflexivity |].
  rewrite Hdelta. vm_compute. reflexivity.
Defined.

Lemma sample_period_that_does_not_parse :
  let d : gmap string PyVal :=
    {[ "enabled" := PyBool true; "period" := PyStr "1w";
       "renew_at" := PyInt 5 ]} in
  parse_duration base (PyStr "1w")
  = Raises (OtherError "ValueError" "invalid duration") /\
  (read_legacy_config base d (fresh PyNone)).1
  = Raises (OtherError "ValueError" "invalid duration").
Proof.
  split; [reflexivity |].
  edestruct (period_parse_error_is_raised_unchanged base
               {[ "enabled" := PyBool true; "period" := PyStr "1w";
                  "renew_at" := PyInt 5 ]}
               (fresh PyNone) (PyBool true) (PyStr "1w"))
    as (Hout & _); [reflexivity .. |].
  exact Hout.
Defined.

Lemma sample_loader_calls :
  let l := [PyDict {[ "module" := PyStr "a.B" ]}; PyInt 3] in
  let r := read_config base {[ "account_validity" := PyList l ]}
             (fresh PyNone) in
  read_templates base template_names = Returns template_names /\
  exists ds,
    (PyDict <$> ds) `prefix_of` l /\
    calls r.2
    = calls (fresh PyNone) ++
      ReadTemplates template_names
      :: imap (fun j d => LoadModule d (config_path j)) ds /\
    match r.1 with
    | Returns _ => PyDict <$> ds = l /\ loads base 0 ds
    | Raises e =>
        (exists ds0 d,
           ds = ds0 ++ [d] /\ loads base 0 ds0 /\
           load_module base d (config_path (length ds0)) = Raises e) \/
        (loads base 0 ds /\
         exists v, l !! length ds = Some v /\ (forall d, v <> PyDict d) /\
                   e = ConfigError "expected a mapping"
                         (Some (config_path (length ds))))
    end.
Proof.
  split; [reflexivity |].
  eapply (module_list_calls_the_loader_in_order base
            {[ "account_validity" :=
                 PyList [PyDict {[ "module" := PyStr "a.B" ]}; PyInt 3] ]}
            (fresh PyNone)); reflexivity.
Defined.

Lemma sample_missing_template_directory :
  read_templates base_without_templates template_names
  = Raises (ConfigError "Configured template directory does not exist" None)
  /\
  (read_config base_without_templates
     {[ "account_validity" := PyStr "yes" ]} (fresh PyNone)).1
  = Raises (ConfigError "Configured template directory does not exist" None).
Proof.
  split; [reflexivity |].
  rewrite (template_error_comes_first base_without_templates
             {[ "account_validity" := PyStr "yes" ]} (fresh PyNone)
             (ConfigError "Configured template directory does not exist" None)
             eq_refl).
  reflexivity.
Defined.

Lemma sample_paths_of_first_two_items :
  (0 <> 1)%nat /\ config_path 0 <> config_path 1.
Proof.
  split; [discriminate |].
  apply (config_path_of_distinct_items 0 1). discriminate.
Defined.


End Witnesses.

End AccountValidityFacts.
